(** * Discord <-> Telegram relay: the correlation tables and the handlers

    A shallow embedding of [main.py] (classes [TelegramBot] and
    [DiscordTelegramSync]).  The four mapping dictionaries are finite maps,
    the handlers are functions from the object's state, the inbound event and
    the answers of the outside world to the new state and the trace of
    outbound calls and log lines they produce.  Python exceptions are a
    result type; every handler's [try ... except Exception] turns a raised
    exception into a log line. *)

From Stdlib Require Import ZArith Ascii String List Bool Lia.
From stdpp Require Import base option list gmap strings pretty.

Import ListNotations.
Local Open Scope string_scope.
Local Open Scope Z_scope.
Local Open Scope list_scope.

(** ** Python values *)

(** [str(n)] for an [int]: the decimal digits, with a minus sign. *)
Definition str (n : Z) : string := pretty n.

(** Truth value of an [int] and of a [str] in a condition. *)
Definition truthy (n : Z) : bool := negb (n =? 0).
Definition nonempty (s : string) : bool :=
  match s with EmptyString => false | String _ _ => true end.

(** [s.startswith(p)]. *)
Definition startswith (s p : string) : bool := String.prefix p s.

(** Truth value of an optional [int] ([None] and [0] are false). *)
Definition truthy_opt (o : option Z) : option Z :=
  match o with
  | Some n => if truthy n then Some n else None
  | None => None
  end.

(** The symbols of the relayed lines, by their UTF-8 bytes: speech balloon,
    microphone, performing-arts masks, camera. *)
Definition utf8 (bytes : list nat) : string :=
  fold_right (λ b s, String (ascii_of_nat b) s) EmptyString bytes.

Definition balloon : string := utf8 [240; 159; 146; 172]%nat.
Definition microphone : string := utf8 [240; 159; 142; 164]%nat.
Definition masks : string := utf8 [240; 159; 142; 173]%nat.
Definition camera : string := utf8 [240; 159; 147; 183]%nat.
Definition newline : string := utf8 [10]%nat.

(** ** Outbound calls, log lines, exceptions *)

(** Requests of [TelegramBot]: the endpoint and the form fields.  The
    [parse_mode] field is the constant [HTML] on every send. *)
Inductive tg_request :=
| sendMessage (chat_id : Z) (text : string) (reply_to_message_id : option Z)
| sendPhoto (chat_id : Z) (photo : string) (caption : string)
    (reply_to_message_id : option Z)
| sendVideo (chat_id : Z) (video : string) (caption : string)
    (reply_to_message_id : option Z)
| sendDocument (chat_id : Z) (document : string) (caption : string)
    (reply_to_message_id : option Z)
| deleteMessage (chat_id : Z) (message_id : Z)
| getUpdates (offset : Z).

(** The JSON object a Telegram call answers with, as far as the program
    reads it: [.get('ok')] and [['result']['message_id']]. *)
Record tg_json := {
  ok : bool;
  result_message_id : option Z
}.

(** A call either returns its JSON or raises (connection error, bad body). *)
Inductive tg_result :=
| Returns (j : tg_json)
| Raises.

Inductive exn := NetworkError | KeyError | OSError.

Inductive level := INFO | WARNING | ERROR.

(** The payload posted to the Discord webhook. *)
Record webhook_data := {
  wh_username : string;
  wh_avatar_url : string;
  wh_content : string
}.

(** What a run does, in order.  [Request] is a call of a method of
    [TelegramBot]; [GetAvatar], [Download] and [WebhookPost] are the calls
    of [get_telegram_user_avatar], [download_telegram_file] and
    [send_webhook_message], which talk to Telegram ([getUserProfilePhotos],
    [getFile]) and to the webhook on their own session; [RemoveFile] is the
    call of [os.remove], which may raise. *)
Inductive event :=
| Request (r : tg_request)
| Log (l : level) (msg : string)
| GetAvatar (user_id : option Z)
| Download (file_id : string)
| WebhookPost (data : webhook_data) (file_path : option string)
| RemoveFile (path : string)
| WebhookDelete (webhook_id webhook_token message_identifier : string)
| Sleep (seconds : Z)
(** the assignment [self.telegram_offset = ...] of the poll loop *)
| SetOffset (offset : Z).

(** ** A writer-and-exception monad for the body of a handler *)

Inductive result (A : Type) :=
| Done (a : A)
| Raise (e : exn).
Arguments Done {A} a.
Arguments Raise {A} e.

Definition io (A : Type) : Type := list event * result A.

#[global] Instance io_ret : MRet io := λ A a, ([], Done a).
#[global] Instance io_bind : MBind io := λ A B f m,
  match m with
  | (t, Done a) => let '(t', r) := f a in (t ++ t', r)
  | (t, Raise e) => (t, Raise e)
  end.

Definition emit (e : event) : io unit := ([e], Done tt).
Definition raise {A} (e : exn) : io A := ([], Raise e).

(** [await self.session.post(...)] on the Telegram API. *)
Definition call (r : tg_request) (answer : tg_result) : io tg_json :=
  match answer with
  | Returns j => ([Request r], Done j)
  | Raises => ([Request r], Raise NetworkError)
  end.

(** ** TelegramBot *)

Module TelegramBot.

Definition send_message (chat_id : Z) (text : string)
    (reply_to_message_id : option Z) : tg_request :=
  sendMessage chat_id text (truthy_opt reply_to_message_id).

Definition send_photo (chat_id : Z) (photo_url caption : string)
    (reply_to_message_id : option Z) : tg_request :=
  sendPhoto chat_id photo_url caption (truthy_opt reply_to_message_id).

Definition send_video (chat_id : Z) (video_url caption : string)
    (reply_to_message_id : option Z) : tg_request :=
  sendVideo chat_id video_url caption (truthy_opt reply_to_message_id).

Definition send_document (chat_id : Z) (document_url caption : string)
    (reply_to_message_id : option Z) : tg_request :=
  sendDocument chat_id document_url caption (truthy_opt reply_to_message_id).

Definition delete_message (chat_id message_id : Z) : tg_request :=
  deleteMessage chat_id message_id.

Definition get_updates (offset : Z) : tg_request := getUpdates offset.

End TelegramBot.

(** ** DiscordTelegramSync: the state *)

Record sync := {
  webhook_url : string;
  discord_channel_id : Z;
  telegram_chat_id : Z;
  (** Discord message id -> (Telegram message id, user name, user id) *)
  discord_to_telegram : gmap string (Z * string * Z);
  (** Telegram message id -> (Discord message id, user name, user id) *)
  telegram_to_discord : gmap Z (string * string * Z);
  (** webhook post id -> Telegram message id *)
  webhook_to_telegram : gmap string Z;
  (** Telegram message id -> webhook post id *)
  telegram_to_webhook : gmap Z string;
  telegram_offset : Z
}.

Definition init (webhook : string) (channel chat : Z) : sync :=
  {| webhook_url := webhook;
     discord_channel_id := channel;
     telegram_chat_id := chat;
     discord_to_telegram := ∅;
     telegram_to_discord := ∅;
     webhook_to_telegram := ∅;
     telegram_to_webhook := ∅;
     telegram_offset := 0 |}.

Definition set_direct (self : sync)
    (d2t : gmap string (Z * string * Z)) (t2d : gmap Z (string * string * Z))
    : sync :=
  {| webhook_url := webhook_url self;
     discord_channel_id := discord_channel_id self;
     telegram_chat_id := telegram_chat_id self;
     discord_to_telegram := d2t;
     telegram_to_discord := t2d;
     webhook_to_telegram := webhook_to_telegram self;
     telegram_to_webhook := telegram_to_webhook self;
     telegram_offset := telegram_offset self |}.

Definition set_relay (self : sync)
    (w2t : gmap string Z) (t2w : gmap Z string) : sync :=
  {| webhook_url := webhook_url self;
     discord_channel_id := discord_channel_id self;
     telegram_chat_id := telegram_chat_id self;
     discord_to_telegram := discord_to_telegram self;
     telegram_to_discord := telegram_to_discord self;
     webhook_to_telegram := w2t;
     telegram_to_webhook := t2w;
     telegram_offset := telegram_offset self |}.

Definition set_offset (self : sync) (offset : Z) : sync :=
  {| webhook_url := webhook_url self;
     discord_channel_id := discord_channel_id self;
     telegram_chat_id := telegram_chat_id self;
     discord_to_telegram := discord_to_telegram self;
     telegram_to_discord := telegram_to_discord self;
     webhook_to_telegram := webhook_to_telegram self;
     telegram_to_webhook := telegram_to_webhook self;
     telegram_offset := offset |}.

(** ** Discord events *)

Record attachment := {
  url : string;
  content_type : option string
}.

Record discord_message := {
  id : Z;
  author_display_name : string;
  author_id : Z;
  (** [message.author == self.discord_bot.user] *)
  author_is_bot : bool;
  webhook_id : option Z;
  channel_id : Z;
  content : string;
  (** [message.reference] and, inside it, [message_id] *)
  reference : option (option Z);
  attachments : list attachment
}.


Section handle_discord_message.

Variable self : sync.
Variable message : discord_message.
(** [answers i] is what Telegram does on the [i]-th call of this run. *)
Variable answers : nat → tg_result.

Definition text : string :=
  balloon +:+ " <b>" +:+ author_display_name message +:+ "</b>: "
    +:+ content message.

Definition reply_to : option Z :=
  match reference message with
  | Some (Some ref_id) =>
      if truthy ref_id then
        match discord_to_telegram self !! str ref_id with
        | Some (telegram_msg_id, _, _) => Some telegram_msg_id
        | None => None
        end
      else None
  | _ => None
  end.

Definition caption : string :=
  if nonempty (content message)
  then "<b>" +:+ author_display_name message +:+ "</b>: " +:+ content message
  else "".

(** The body of the attachment loop: which call one attachment makes. *)
Definition send_attachment (a : attachment) : tg_request :=
  match content_type a with
  | Some ct =>
      if nonempty ct then
        if startswith ct "image/" then
          TelegramBot.send_photo (telegram_chat_id self) (url a) caption reply_to
        else if startswith ct "video/" then
          TelegramBot.send_video (telegram_chat_id self) (url a) caption reply_to
        else
          TelegramBot.send_document (telegram_chat_id self) (url a) caption reply_to
      else
        TelegramBot.send_document (telegram_chat_id self) (url a) caption reply_to
  | None =>
      TelegramBot.send_document (telegram_chat_id self) (url a) caption reply_to
  end.

(** [for attachment in message.attachments: telegram_msg = await ...] *)
Fixpoint send_attachments (i : nat) (l : list attachment)
    (telegram_msg : option tg_json) : io (option tg_json) :=
  match l with
  | [] => mret telegram_msg
  | a :: l' =>
      j ← call (send_attachment a) (answers i);
      send_attachments (S i) l' (Some j)
  end.

Definition send_text : io (option tg_json) :=
  if nonempty (content message) then
    j ← call (TelegramBot.send_message (telegram_chat_id self) text reply_to)
          (answers 0%nat);
    mret (Some j)
  else mret None.

(** The index of the first attachment's call. *)
Definition first_attachment_call : nat :=
  if nonempty (content message) then 1%nat else 0%nat.

Definition record_direct (telegram_msg_id : Z) : sync :=
  set_direct self
    (<[str (id message) :=
         (telegram_msg_id, author_display_name message, author_id message)]>
       (discord_to_telegram self))
    (<[telegram_msg_id :=
         (str (id message), author_display_name message, author_id message)]>
       (telegram_to_discord self)).

(** [if telegram_msg and telegram_msg.get('ok'): ...] *)
Definition map_messages (telegram_msg : option tg_json) : io sync :=
  match telegram_msg with
  | Some j =>
      if ok j then
        match result_message_id j with
        | Some telegram_msg_id => mret (record_direct telegram_msg_id)
        | None => raise KeyError
        end
      else mret self
  | None => mret self
  end.

Definition handle_discord_message_body : io sync :=
  telegram_msg ← send_text;
  telegram_msg ← send_attachments first_attachment_call
                   (attachments message) telegram_msg;
  map_messages telegram_msg.

Definition handle_discord_message : sync * list event :=
  match handle_discord_message_body with
  | (t, Done self') => (self', t)
  | (t, Raise e) => (self, t ++ [Log ERROR "Error processing Discord message"])
  end.

End handle_discord_message.


Section handle_discord_message_delete.

Variable self : sync.
Variable message : discord_message.
(** What Telegram does on the [deleteMessage] call, if it is made. *)
Variable answer : tg_result.

Definition handle_discord_message_delete_body : io sync :=
  let message_id := str (id message) in
  match discord_to_telegram self !! message_id with
  | Some (telegram_msg_id, _, _) =>
      result ← call (TelegramBot.delete_message (telegram_chat_id self)
                       telegram_msg_id) answer;
      if ok result then
        (* [del d[k]] after a membership test is [delete]; so is
           [if k in d: del d[k]] *)
        _ ← emit (Log INFO "Message deleted in Telegram");
        mret (set_direct self
                (delete message_id (discord_to_telegram self))
                (delete telegram_msg_id (telegram_to_discord self)))
      else
        _ ← emit (Log WARNING "Failed to delete message in Telegram");
        mret self
  | None => mret self
  end.

Definition handle_discord_message_delete : sync * list event :=
  match handle_discord_message_delete_body with
  | (t, Done self') => (self', t)
  | (t, Raise e) => (self, t ++ [Log ERROR "Error deleting message in Telegram"])
  end.

End handle_discord_message_delete.

(** [on_message_delete]: deletions of webhook posts and of messages of
    other channels are ignored. *)
Definition on_message_delete (self : sync) (message : discord_message)
    (answer : tg_result) : sync * list event :=
  if bool_decide (truthy_opt (webhook_id message) ≠ None) then (self, [])
  else if channel_id message =? discord_channel_id self
       then handle_discord_message_delete self message answer
       else (self, []).

(** ** Telegram updates *)

Record photo_size := {
  ps_file_id : string;
  ps_width : option Z
}.

Record sticker := {
  st_file_id : string;
  is_animated : bool;
  is_video : bool;
  (** [sticker['thumbnail']['file_id']] when a thumbnail is present *)
  thumbnail : option string;
  emoji : option string
}.

(** The fields of [update['message']] the handler reads.  A media field
    holds the [file_id] of the object under that key. *)
Record tg_message := {
  msg_message_id : option Z;
  msg_chat_id : option Z;
  msg_username : option string;
  msg_first_name : option string;
  msg_user_id : option Z;
  (** [message['reply_to_message']['message_id']] *)
  msg_reply_to_message : option Z;
  msg_text : option string;
  msg_photo : list photo_size;
  msg_video : option string;
  msg_document : option string;
  msg_voice : option string;
  msg_animation : option string;
  msg_sticker : option sticker;
  msg_caption : option string
}.

Record update := {
  update_id : Z;
  (** the key [deleted_message] and, inside it, [message_id] *)
  deleted_message : option (option Z);
  message : option tg_message
}.

(** What happens inside a helper that catches every exception itself:
    its body returns, or something raises in it, and then the helper logs
    the exception and returns [None]. *)
Inductive attempt :=
| Gives (value : option string)
| Catches.

(** What the outside world does during the dispatch of one update: the
    outcomes of the helpers that only talk to the network or the file
    system.  [get_telegram_user_avatar], [download_telegram_file] and
    [send_webhook_message] catch every exception themselves and log it. *)
Record tg_world := {
  (** the URL [get_telegram_user_avatar] returns *)
  avatar : string;
  (** something raises inside [get_telegram_user_avatar] *)
  avatar_raises : bool;
  (** the path of the temporary file *)
  download : attempt;
  (** the [id] of the mock message *)
  post : attempt;
  path_exists : bool;
  remove_raises : bool;
  (** [self.discord_bot.get_channel(...)] finds the channel *)
  channel_found : bool;
  (** status of the webhook [DELETE]; [None] when the request raises *)
  delete_status : option Z
}.

(** What [download_telegram_file] and [send_webhook_message] return. *)
Definition downloaded (w : tg_world) : option string :=
  match download w with
  | Gives file_path => file_path
  | Catches => None
  end.

Definition posted (w : tg_world) : option string :=
  match post w with
  | Gives msg_id => msg_id
  | Catches => None
  end.

(** ** Helpers of the Telegram side *)

Fixpoint split (sep : ascii) (s : string) : list string :=
  match s with
  | EmptyString => [EmptyString]
  | String c s' =>
      if Ascii.eqb c sep then EmptyString :: split sep s'
      else match split sep s' with
           | hd :: tl => String c hd :: tl
           | [] => [String c EmptyString]
           end
  end.

(** [parts[-2], parts[-1]] when there are at least two parts. *)
Definition extract_webhook_info (webhook_url : string)
    : option string * option string :=
  match rev (split "/"%char webhook_url) with
  | webhook_token :: webhook_id :: _ => (Some webhook_id, Some webhook_token)
  | _ => (None, None)
  end.

(** Every exception inside is caught and logged: this never raises. *)
Definition delete_webhook_message (self : sync) (w : tg_world)
    (message_identifier : string) : io unit :=
  match extract_webhook_info (webhook_url self) with
  | (Some webhook_id, Some webhook_token) =>
      if nonempty webhook_id && nonempty webhook_token then
        _ ← emit (WebhookDelete webhook_id webhook_token message_identifier);
        match delete_status w with
        | Some status =>
            if status =? 204 then emit (Log INFO "Webhook message deleted")
            else emit (Log WARNING "Failed to delete webhook message")
        | None => emit (Log ERROR "Error deleting webhook message")
        end
      else mret tt
  | _ => mret tt
  end.

(** The three helpers below are one event each, the call, and the line
    they log when they catch an exception; none of them raises. *)
Definition get_telegram_user_avatar (w : tg_world) (user_id : option Z)
    : io string :=
  _ ← emit (GetAvatar user_id);
  _ ← (if avatar_raises w then emit (Log ERROR "Error fetching avatar")
       else mret tt);
  mret (avatar w).

Definition download_telegram_file (w : tg_world) (file_id : string)
    : io (option string) :=
  _ ← emit (Download file_id);
  match download w with
  | Gives file_path => mret file_path
  | Catches =>
      _ ← emit (Log ERROR "Error downloading file from Telegram"); mret None
  end.

Definition send_webhook_message (w : tg_world) (data : webhook_data)
    (file_path : option string) : io (option string) :=
  _ ← emit (WebhookPost data file_path);
  match post w with
  | Gives msg_id => mret msg_id
  | Catches => _ ← emit (Log ERROR "Error sending webhook"); mret None
  end.

(** [if file_path and os.path.exists(file_path): os.remove(file_path)] *)
Definition clean_up (w : tg_world) (file_path : option string) : io unit :=
  match file_path with
  | Some p =>
      if nonempty p && path_exists w then
        if remove_raises w then ([RemoveFile p], Raise OSError)
        else emit (RemoveFile p)
      else mret tt
  | None => mret tt
  end.

(** [max(photos, key=lambda p: p.get('width', 0))]: the first photo of
    greatest width; the built-in raises on an empty list. *)
Definition width_of (p : photo_size) : Z := default 0 (ps_width p).

Fixpoint max_by_width (best : photo_size) (l : list photo_size) : photo_size :=
  match l with
  | [] => best
  | p :: l' =>
      if width_of best <? width_of p then max_by_width p l'
      else max_by_width best l'
  end.


Definition path_truthy (file_path : option string) : bool :=
  match file_path with Some p => nonempty p | None => false end.

Section handle_telegram_message_delete.

Variable self : sync.
Variable upd : update.
Variable w : tg_world.

(** The inner [try] guards [get_channel] and [delete_webhook_message];
    neither raises, so its handler is never entered. *)
Definition handle_telegram_message_delete_body : io sync :=
  match deleted_message upd with
  | Some (Some message_id) =>
      if truthy message_id then
        match telegram_to_discord self !! message_id with
        | Some (discord_msg_id, username, user_id) =>
            _ ← (if channel_found w
                 then delete_webhook_message self w discord_msg_id
                 else mret tt);
            _ ← emit (Log INFO "Message deleted in Discord");
            mret (set_direct self
                    (delete discord_msg_id (discord_to_telegram self))
                    (delete message_id (telegram_to_discord self)))
        | None =>
            match telegram_to_webhook self !! message_id with
            | Some webhook_id =>
                mret (set_relay self
                        (delete webhook_id (webhook_to_telegram self))
                        (delete message_id (telegram_to_webhook self)))
            | None => mret self
            end
        end
      else mret self
  | _ => mret self
  end.

Definition handle_telegram_message_delete : sync * list event :=
  match handle_telegram_message_delete_body with
  | (t, Done self') => (self', t)
  | (t, Raise e) => (self, t ++ [Log ERROR "Error processing Telegram deletion"])
  end.

End handle_telegram_message_delete.

Section handle_telegram_message.

Variable self : sync.
Variable upd : update.
Variable w : tg_world.

Definition username_of (m : tg_message) : string :=
  match msg_username m with
  | Some n => n
  | None => default "User" (msg_first_name m)
  end.

Definition reply_text (m : tg_message) : string :=
  match msg_reply_to_message m with
  | Some replied_msg_id =>
      match telegram_to_discord self !! replied_msg_id with
      | Some (_, original_username, _) =>
          "> " +:+ balloon +:+ " Replying to **" +:+ original_username
            +:+ "**" +:+ newline +:+ newline
      | None =>
          match telegram_to_webhook self !! replied_msg_id with
          | Some _ =>
              "> " +:+ balloon +:+ " Replying to previous message"
                +:+ newline +:+ newline
          | None => ""
          end
      end
  | None => ""
  end.

Definition webhook_data_of (m : tg_message) (avatar_url content : string)
    : webhook_data :=
  {| wh_username := username_of m;
     wh_avatar_url := avatar_url;
     wh_content := content |}.

(** Download, post with the file, remove the temporary file. *)
Definition relay_file (data : webhook_data) (file_id : string)
    : io (option string) :=
  file_path ← download_telegram_file w file_id;
  discord_msg ← send_webhook_message w data file_path;
  _ ← clean_up w file_path;
  mret discord_msg.

Definition relay_sticker (m : tg_message) (avatar_url : string) (s : sticker)
    : io (option string) :=
  '(file_path, discord_msg) ←
    (if is_animated s || is_video s then
       file_path ← match thumbnail s with
                    | Some file_id => download_telegram_file w file_id
                    | None => mret None
                    end;
       if path_truthy file_path then mret (file_path, None)
       else
         discord_msg ← send_webhook_message w
           (webhook_data_of m avatar_url
              (reply_text m +:+ masks +:+ " " +:+ default camera (emoji s)))
           None;
         mret (file_path, discord_msg)
     else
       file_path ← download_telegram_file w (st_file_id s);
       mret (file_path, None));
  if path_truthy file_path then
    discord_msg ← send_webhook_message w
      (webhook_data_of m avatar_url (reply_text m)) file_path;
    _ ← clean_up w file_path;
    mret discord_msg
  else mret discord_msg.

(** The chain of [if message.get(...)] / [elif]: the first key that is
    present and true decides. *)
Definition relay_content (m : tg_message) (avatar_url : string)
    : io (option string) :=
  let with_caption :=
    webhook_data_of m avatar_url
      (reply_text m +:+ default "" (msg_caption m)) in
  if nonempty (default "" (msg_text m)) then
    send_webhook_message w
      (webhook_data_of m avatar_url (reply_text m +:+ default "" (msg_text m)))
      None
  else
    match msg_photo m with
    | p :: l => relay_file with_caption (ps_file_id (max_by_width p l))
    | [] =>
    match msg_video m with
    | Some file_id => relay_file with_caption file_id
    | None =>
    match msg_document m with
    | Some file_id => relay_file with_caption file_id
    | None =>
    match msg_voice m with
    | Some file_id =>
        relay_file
          (webhook_data_of m avatar_url
             (reply_text m +:+ microphone +:+ " Audio")) file_id
    | None =>
    match msg_animation m with
    | Some file_id => relay_file with_caption file_id
    | None =>
    match msg_sticker m with
    | Some s => relay_sticker m avatar_url s
    | None => mret None
    end end end end end end.

Definition record_relay (message_id : Z) (webhook_timestamp : string) : sync :=
  set_relay self
    (<[webhook_timestamp := message_id]> (webhook_to_telegram self))
    (<[message_id := webhook_timestamp]> (telegram_to_webhook self)).

Definition handle_telegram_message_body : io sync :=
  match deleted_message upd with
  | Some _ =>
      let '(self', t) := handle_telegram_message_delete self upd w in
      (t, Done self')
  | None =>
      match message upd with
      | None => mret self
      | Some m =>
          if bool_decide (msg_chat_id m = Some (telegram_chat_id self)) then
            avatar_url ← get_telegram_user_avatar w (msg_user_id m);
            discord_msg ← relay_content m avatar_url;
            match discord_msg, truthy_opt (msg_message_id m) with
            | Some webhook_timestamp, Some message_id =>
                mret (record_relay message_id webhook_timestamp)
            | _, _ => mret self
            end
          else mret self
      end
  end.

Definition handle_telegram_message : sync * list event :=
  match handle_telegram_message_body with
  | (t, Done self') => (self', t)
  | (t, Raise e) => (self, t ++ [Log ERROR "Error processing Telegram message"])
  end.

End handle_telegram_message.

(** ** The poll loop *)

(** What [get_updates] does: it raises, or returns a JSON object with
    [ok] and the list under [result]. *)
Inductive fetch :=
| FetchRaises
| FetchReturns (ok : bool) (result : list update).

(** [for update in updates['result']: ...]; [worlds i] is the outside
    world during the dispatch of the [i]-th update. *)
Fixpoint for_updates (self : sync) (updates : list update)
    (worlds : nat → tg_world) (i : nat) : sync * list event :=
  match updates with
  | [] => (self, [])
  | upd :: rest =>
      let '(self1, t1) := handle_telegram_message self upd (worlds i) in
      let self2 := set_offset self1 (update_id upd + 1) in
      let '(self3, t3) := for_updates self2 rest worlds (S i) in
      (self3, t1 ++ SetOffset (update_id upd + 1) :: t3)
  end.

(** One turn of [while True]. *)
Definition poll_once (self : sync) (f : fetch) (worlds : nat → tg_world)
    : sync * list event :=
  let req := Request (TelegramBot.get_updates (telegram_offset self)) in
  match f with
  | FetchRaises => (self, [req; Log ERROR "Error in Telegram polling"; Sleep 5])
  | FetchReturns true updates =>
      let '(self', t) := for_updates self updates worlds 0%nat in
      (self', req :: t ++ [Sleep 1])
  | FetchReturns false _ => (self, [req; Sleep 1])
  end.

(** The loop never ends by itself; its first turns, one per element of
    [turns]. *)
Fixpoint telegram_polling (self : sync)
    (turns : list (fetch * (nat → tg_world))) : sync * list event :=
  match turns with
  | [] => (self, [])
  | (f, worlds) :: rest =>
      let '(self1, t1) := poll_once self f worlds in
      let '(self2, t2) := telegram_polling self1 rest in
      (self2, t1 ++ t2)
  end.

(** ** Avatars *)

(** [f"{user_id}"]: the digits of the id, [None] when the update carries
    no user id. *)
Definition fmt (user_id : option Z) : string :=
  match user_id with
  | Some n => str n
  | None => "None"
  end.

(** The JSON of [getFile] as far as it is read: [.get('ok')] and
    [['result']['file_path']]. *)
Record file_json := {
  file_ok : bool;
  file_path : option string
}.

Inductive file_result :=
| FileReturns (j : file_json)
| FileRaises.

(** The JSON of [getUserProfilePhotos] as far as it is read: [.get('ok')],
    [['result']['total_count']] and [['result']['photos']], each photo the
    list of the [file_id]s of its sizes. *)
Record photos_json := {
  photos_ok : bool;
  total_count : option Z;
  photos : list (list string)
}.

Inductive photos_result :=
| PhotosReturns (j : photos_json)
| PhotosRaises.

(** The two [GET] calls of the avatar lookup. *)
Inductive api_get :=
| getUserProfilePhotos (user_id : option Z)
| getFile (file_id : string).

Definition default_avatar (user_id : option Z) : string :=
  "https://api.dicebear.com/7.x/initials/svg?seed=" +:+ fmt user_id.

(** [get_telegram_file_url]: the download URL, the empty string when
    [getFile] does not say [ok] or anything raises. *)
Definition get_telegram_file_url (telegram_token : string)
    (answer : file_result) : string :=
  match answer with
  | FileReturns j =>
      if file_ok j then
        match file_path j with
        | Some path =>
            "https://api.telegram.org/file/bot" +:+ telegram_token +:+ "/"
              +:+ path
        | None => ""
        end
      else ""
  | FileRaises => ""
  end.

(** [get_telegram_user_avatar], with the answers of the two calls it can
    make: the calls made and the URL returned.  [photos[0][-1]] raises on
    an empty list, and so does a missing key; every exception ends in the
    default avatar. *)
Definition user_avatar (telegram_token : string) (user_id : option Z)
    (photos_answer : photos_result) (file_answer : file_result)
    : list api_get * string :=
  let asked := getUserProfilePhotos user_id in
  match photos_answer with
  | PhotosReturns data =>
      if photos_ok data then
        match total_count data with
        | Some n =>
            if 0 <? n then
              match photos data with
              | sizes :: _ =>
                  match last sizes with
                  | Some file_id =>
                      ([asked; getFile file_id],
                       get_telegram_file_url telegram_token file_answer)
                  | None => ([asked], default_avatar user_id)
                  end
              | [] => ([asked], default_avatar user_id)
              end
            else ([asked], default_avatar user_id)
        | None => ([asked], default_avatar user_id)
        end
      else ([asked], default_avatar user_id)
  | PhotosRaises => ([asked], default_avatar user_id)
  end.

(** * Vocabulary of the properties *)

(** Making the calls [reqs] in order, the [i]-th answered by [answers i];
    the value is the JSON of the last call made, [telegram_msg] when none
    is.  The text send followed by the attachment loop is such a run. *)
Fixpoint calls (answers : nat → tg_result) (i : nat) (reqs : list tg_request)
    (telegram_msg : option tg_json) : io (option tg_json) :=
  match reqs with
  | [] => mret telegram_msg
  | r :: reqs' =>
      j ← call r (answers i);
      calls answers (S i) reqs' (Some j)
  end.

(** All the sends of one message, in order. *)
Definition requests (self : sync) (message : discord_message)
    : list tg_request :=
  (if nonempty (content message)
   then [TelegramBot.send_message (telegram_chat_id self) (text message)
           (reply_to self message)]
   else [])
  ++ map (send_attachment self message) (attachments message).

Definition returns (r : tg_result) : Prop := ∃ j, r = Returns j.

Definition json_of (r : tg_result) : option tg_json :=
  match r with Returns j => Some j | Raises => None end.

(** The Telegram id of the last of the first [n] calls that was answered
    with success. *)
Fixpoint last_successful (answers : nat → tg_result) (n : nat) : option Z :=
  match n with
  | O => None
  | S n' =>
      match answers n' with
      | Returns j =>
          if ok j then
            match result_message_id j with
            | Some t => Some t
            | None => last_successful answers n'
            end
          else last_successful answers n'
      | Raises => last_successful answers n'
      end
  end.

(** The answer to the last of [n] calls. *)
Definition final_answer (answers : nat → tg_result) (n : nat)
    : option tg_json :=
  match n with
  | O => None
  | S n' => json_of (answers n')
  end.

Definition error_line : event := Log ERROR "Error processing Discord message".

(** The [reply_to_message_id] field of a request. *)
Definition reply_hint (r : tg_request) : option Z :=
  match r with
  | sendMessage _ _ h | sendPhoto _ _ _ h | sendVideo _ _ _ h
  | sendDocument _ _ _ h => h
  | deleteMessage _ _ | getUpdates _ => None
  end.

(** The requests in a trace. *)
Definition sent (t : list event) : list tg_request :=
  omap (λ e, match e with Request r => Some r | _ => None end) t.

(** The three send primitives for a file. *)
Inductive primitive := Photo | Video | Document.

(** The classification as the specification words it: [image/*] is a
    photo, [video/*] a video, anything else or nothing a document. *)
Definition category (content_type : option string) : primitive :=
  match content_type with
  | Some ct =>
      if startswith ct "image/" then Photo
      else if startswith ct "video/" then Video
      else Document
  | None => Document
  end.

Definition primitive_request (p : primitive) (chat_id : Z)
    (file_url file_caption : string) (hint : option Z) : tg_request :=
  match p with
  | Photo => sendPhoto chat_id file_url file_caption hint
  | Video => sendVideo chat_id file_url file_caption hint
  | Document => sendDocument chat_id file_url file_caption hint
  end.

(** A JSON answer that carries a message id whenever it says [ok]. *)
Definition well_formed (r : tg_result) : Prop :=
  ∃ j, r = Returns j ∧ (ok j = true → is_Some (result_message_id j)).

(** The outbound delete reports success: there is a correlation to delete
    for, and Telegram answers the call with [ok]. *)
Definition delete_succeeded (self : sync) (message : discord_message)
    (answer : tg_result) : Prop :=
  ∃ t n u j,
    discord_to_telegram self !! str (id message) = Some (t, n, u)
    ∧ answer = Returns j
    ∧ ok j = true.

(** The state after the Telegram delete handler, by the table in which
    the deleted id is found. *)
Definition after_telegram_delete (self : sync) (message_id : Z) : sync :=
  match telegram_to_discord self !! message_id with
  | Some (discord_msg_id, _, _) =>
      set_direct self
        (delete discord_msg_id (discord_to_telegram self))
        (delete message_id (telegram_to_discord self))
  | None =>
      match telegram_to_webhook self !! message_id with
      | Some webhook_id =>
          set_relay self
            (delete webhook_id (webhook_to_telegram self))
            (delete message_id (telegram_to_webhook self))
      | None => self
      end
  end.

(** A correlation of the store: a Discord message with a Telegram message,
    or a webhook post with a Telegram message. *)
Inductive correlation :=
| Direct (discord_msg_id : string) (telegram_msg_id : Z)
| Relay (webhook_id : string) (telegram_msg_id : Z).

Definition telegram_half (c : correlation) : Z :=
  match c with Direct _ t | Relay _ t => t end.

(** Both directions of the correlation are in the tables; for a webhook
    post, the Telegram id has no direct correlation besides (the delete
    handler looks in the direct table first). *)
Definition recorded (self : sync) (c : correlation) : Prop :=
  match c with
  | Direct d t =>
      (∃ n u, discord_to_telegram self !! d = Some (t, n, u))
      ∧ (∃ n u, telegram_to_discord self !! t = Some (d, n, u))
  | Relay wid t =>
      webhook_to_telegram self !! wid = Some t
      ∧ telegram_to_webhook self !! t = Some wid
      ∧ telegram_to_discord self !! t = None
  end.

(** A lookup of either half finds nothing. *)
Definition forgotten (self : sync) (c : correlation) : Prop :=
  match c with
  | Direct d t =>
      discord_to_telegram self !! d = None
      ∧ telegram_to_discord self !! t = None
  | Relay wid t =>
      webhook_to_telegram self !! wid = None
      ∧ telegram_to_webhook self !! t = None
  end.

(** Whenever the Discord-to-Telegram table maps [d] to [t], the
    Telegram-to-Discord table maps [t] back to [d], and no other entry of
    either table mentions [d] or [t]. *)
Definition at_most_one_correlation (self : sync) : Prop :=
  ∀ d t n u,
    discord_to_telegram self !! d = Some (t, n, u) →
    (∃ n' u', telegram_to_discord self !! t = Some (d, n', u'))
    ∧ (∀ d' n' u', discord_to_telegram self !! d' = Some (t, n', u') → d' = d)
    ∧ (∀ t' n' u', telegram_to_discord self !! t' = Some (d, n', u') → t' = t).

(** No entry of the tables mentions the Discord id yet. *)
Definition unused_discord_id (self : sync) (d : string) : Prop :=
  ∀ t n u, telegram_to_discord self !! t ≠ Some (d, n, u).

(** No entry of the Discord-to-Telegram table mentions the Telegram id
    yet. *)
Definition unused_telegram_id (self : sync) (t : Z) : Prop :=
  ∀ d n u, discord_to_telegram self !! d ≠ Some (t, n, u).

(** The cursor assignments in a trace. *)
Definition acknowledged (t : list event) : list Z :=
  omap (λ e, match e with SetOffset o => Some o | _ => None end) t.

(** The cursor a turn of the loop leaves, from the cursor it starts with
    and what [get_updates] did: one past the id of the last update of the
    batch. *)
Definition cursor_after (cursor : Z) (f : fetch) : Z :=
  match f with
  | FetchReturns true updates =>
      match last updates with
      | Some upd => update_id upd + 1
      | None => cursor
      end
  | _ => cursor
  end.

(** Every update id of the batch is at or above the cursor the update
    before it leaves: the batch ascends from the cursor. *)
Fixpoint ascending_from (cursor : Z) (updates : list update) : Prop :=
  match updates with
  | [] => True
  | upd :: rest => cursor ≤ update_id upd ∧ ascending_from (update_id upd + 1) rest
  end.

Fixpoint ascending_turns (cursor : Z) (fetches : list fetch) : Prop :=
  match fetches with
  | [] => True
  | f :: rest =>
      match f with
      | FetchReturns true updates => ascending_from cursor updates
      | _ => True
      end
      ∧ ascending_turns (cursor_after cursor f) rest
  end.

(** The highest update id of a batch. *)
Definition highest_id (updates : list update) : option Z :=
  match updates with
  | [] => None
  | upd :: rest => Some (fold_left Z.max (map update_id rest) (update_id upd))
  end.

(** ** Sample inputs *)

Definition sample_sync : sync :=
  init "https://discord.com/api/webhooks/11/tok" 5 (-7).

Definition succeeds (telegram_msg_id : Z) : tg_result :=
  Returns {| ok := true; result_message_id := Some telegram_msg_id |}.

Definition fails : tg_result :=
  Returns {| ok := false; result_message_id := None |}.

(** Telegram answers every call the same way. *)
Definition always (r : tg_result) : nat → tg_result := λ _, r.

Definition png : attachment :=
  {| url := "https://cdn.example/a.png"; content_type := Some "image/png" |}.

Definition mp4 : attachment :=
  {| url := "https://cdn.example/b.mp4"; content_type := Some "video/mp4" |}.

Definition ann_says (message_id : Z) (said : string)
    (files : list attachment) : discord_message :=
  {| id := message_id;
     author_display_name := "Ann";
     author_id := 9;
     author_is_bot := false;
     webhook_id := None;
     channel_id := 5;
     content := said;
     reference := None;
     attachments := files |}.

Definition replies_to (message : discord_message) (ref_id : Z)
    : discord_message :=
  {| id := id message;
     author_display_name := author_display_name message;
     author_id := author_id message;
     author_is_bot := author_is_bot message;
     webhook_id := webhook_id message;
     channel_id := channel_id message;
     content := content message;
     reference := Some (Some ref_id);
     attachments := attachments message |}.

(** Telegram's answers to the calls of a run, in order; a call beyond the
    list raises. *)
Definition script (l : list tg_result) : nat → tg_result :=
  λ k, nth k l Raises.

Definition recorded_once : sync :=
  fst (handle_discord_message sample_sync (ann_says 1 "hi" [])
         (always (succeeds 100))).

Definition recorded_twice : sync :=
  fst (handle_discord_message recorded_once (ann_says 1 "hi again" [])
         (always (succeeds 101))).

Definition bare_update (n : Z) : update :=
  {| update_id := n; deleted_message := None; message := None |}.

Definition quiet : nat → tg_world :=
  λ _, {| avatar := "";
          avatar_raises := false;
          download := Gives None;
          post := Gives None;
          path_exists := false;
          remove_raises := false;
          channel_found := false;
          delete_status := None |}.

(** A Telegram message of the configured chat that carries a document. *)
Definition document_update (n : Z) : update :=
  {| update_id := n;
     deleted_message := None;
     message := Some
       {| msg_message_id := Some (n + 500);
          msg_chat_id := Some (-7);
          msg_username := Some "bob";
          msg_first_name := None;
          msg_user_id := Some 42;
          msg_reply_to_message := None;
          msg_text := None;
          msg_photo := [];
          msg_video := None;
          msg_document := Some "file-1";
          msg_voice := None;
          msg_animation := None;
          msg_sticker := None;
          msg_caption := None |} |}.

(** The temporary file cannot be removed: the dispatch of a media message
    fails inside, after the webhook post. *)
Definition stormy : nat → tg_world :=
  λ _, {| avatar := "https://api.dicebear.com/7.x/initials/svg?seed=42";
          avatar_raises := false;
          download := Gives (Some "/tmp/tmpabc.pdf");
          post := Gives (Some "900");
          path_exists := true;
          remove_raises := true;
          channel_found := true;
          delete_status := None |}.

(** The number of calls made out of [n] planned ones, the first answered
    by [answers i]: a call that raises is the last. *)
Fixpoint calls_made (answers : nat → tg_result) (i n : nat) : nat :=
  match n with
  | O => O
  | S n' =>
      match answers i with
      | Returns _ => S (calls_made answers (S i) n')
      | Raises => 1%nat
      end
  end.

(** Everything but the two Discord-to-Telegram tables is the same. *)
Definition same_but_direct (self self' : sync) : Prop :=
  webhook_url self' = webhook_url self
  ∧ discord_channel_id self' = discord_channel_id self
  ∧ telegram_chat_id self' = telegram_chat_id self
  ∧ webhook_to_telegram self' = webhook_to_telegram self
  ∧ telegram_to_webhook self' = telegram_to_webhook self
  ∧ telegram_offset self' = telegram_offset self.

(** Everything but the two webhook tables is the same. *)
Definition same_but_relay (self self' : sync) : Prop :=
  webhook_url self' = webhook_url self
  ∧ discord_channel_id self' = discord_channel_id self
  ∧ telegram_chat_id self' = telegram_chat_id self
  ∧ discord_to_telegram self' = discord_to_telegram self
  ∧ telegram_to_discord self' = telegram_to_discord self
  ∧ telegram_offset self' = telegram_offset self.

(** The webhook posts and the downloads in a trace. *)
Definition posts (t : list event) : list (webhook_data * option string) :=
  omap (λ e, match e with WebhookPost d f => Some (d, f) | _ => None end) t.

Definition downloads (t : list event) : list string :=
  omap (λ e, match e with Download f => Some f | _ => None end) t.

(** The trace without its log lines. *)
Definition without_logs (t : list event) : list event :=
  omap (λ e, match e with Log _ _ => None | _ => Some e end) t.

(** The files [os.remove] is called on. *)
Definition removals (t : list event) : list string :=
  omap (λ e, match e with RemoveFile p => Some p | _ => None end) t.

(** Every post of a file is followed at once by the call of [os.remove]
    on that file, when the file is there ([there] is what
    [os.path.exists] answers). *)
Fixpoint files_released (there : bool) (t : list event) : Prop :=
  match t with
  | [] => True
  | WebhookPost _ (Some p) :: rest =>
      (nonempty p && there = true →
       match rest with
       | RemoveFile q :: _ => q = p
       | _ => False
       end)
      ∧ files_released there rest
  | _ :: rest => files_released there rest
  end.



(** The offsets of the [getUpdates] calls in a trace. *)
Definition polled (t : list event) : list Z :=
  omap (λ e, match e with Request (getUpdates o) => Some o | _ => None end) t.

(** The cursor at the start of each turn, from the first cursor and what
    the fetches return. *)
Fixpoint cursors (cursor : Z) (fetches : list fetch) : list Z :=
  match fetches with
  | [] => []
  | f :: rest => cursor :: cursors (cursor_after cursor f) rest
  end.

(** The string holds the character. *)
Fixpoint contains (c : ascii) (s : string) : bool :=
  match s with
  | EmptyString => false
  | String c' s' => Ascii.eqb c' c || contains c s'
  end.

(** A photo in three sizes. *)
Definition photo_message : tg_message :=
  {| msg_message_id := Some 521;
     msg_chat_id := Some (-7);
     msg_username := None;
     msg_first_name := Some "Bob";
     msg_user_id := Some 42;
     msg_reply_to_message := None;
     msg_text := None;
     msg_photo :=
       [ {| ps_file_id := "small"; ps_width := Some 90 |};
         {| ps_file_id := "large"; ps_width := Some 1280 |};
         {| ps_file_id := "medium"; ps_width := None |} ];
     msg_video := None;
     msg_document := None;
     msg_voice := None;
     msg_animation := None;
     msg_sticker := None;
     msg_caption := Some "look" |}.

Definition photo_update : update :=
  {| update_id := 21; deleted_message := None; message := Some photo_message |}.

(** A text message of the configured chat of [sample_sync]. *)
Definition bob_says (message_id : Z) (said : string) (replied : option Z)
    : tg_message :=
  {| msg_message_id := Some message_id;
     msg_chat_id := Some (-7);
     msg_username := Some "bob";
     msg_first_name := Some "Bob";
     msg_user_id := Some 42;
     msg_reply_to_message := replied;
     msg_text := Some said;
     msg_photo := [];
     msg_video := None;
     msg_document := None;
     msg_voice := None;
     msg_animation := None;
     msg_sticker := None;
     msg_caption := None |}.

Definition message_update (n : Z) (m : tg_message) : update :=
  {| update_id := n; deleted_message := None; message := Some m |}.

Definition delete_update (n message_id : Z) : update :=
  {| update_id := n; deleted_message := Some (Some message_id); message := None |}.

(** The webhook post succeeds and Discord returns the id. *)
Definition posting (webhook_msg_id : string) : tg_world :=
  {| avatar := "https://api.dicebear.com/7.x/initials/svg?seed=42";
     avatar_raises := false;
     download := Gives None;
     post := Gives (Some webhook_msg_id);
     path_exists := false;
     remove_raises := false;
     channel_found := true;
     delete_status := Some 204 |}.


(** The file is downloaded, and the webhook post raises. *)
Definition refusing : tg_world :=
  {| avatar := "https://api.dicebear.com/7.x/initials/svg?seed=42";
     avatar_raises := false;
     download := Gives (Some "/tmp/tmpabc.pdf");
     post := Catches;
     path_exists := true;
     remove_raises := false;
     channel_found := true;
     delete_status := Some 204 |}.

(** The two webhook tables mirror each other. *)
Definition relay_paired (self : sync) : Prop :=
  ∀ message_id webhook_id,
    telegram_to_webhook self !! message_id = Some webhook_id
    ↔ webhook_to_telegram self !! webhook_id = Some message_id.

(** The profile photo query found a photo: the [file_id] of the last size
    of the first photo. *)
Definition found_photo (photos_answer : photos_result) : option string :=
  match photos_answer with
  | PhotosReturns data =>
      match total_count data with
      | Some n =>
          if photos_ok data && (0 <? n) then head (photos data) ≫= last
          else None
      | None => None
      end
  | PhotosRaises => None
  end.

(** * Properties *)

(** ** The sends of [handle_discord_message] *)

Lemma send_attachments_calls self message answers l : ∀ i telegram_msg,
  send_attachments self message answers i l telegram_msg
  = calls answers i (map (send_attachment self message) l) telegram_msg.
Proof.
  induction l as [|a l IH]; intros i telegram_msg; simpl; [done|].
  unfold mbind, io_bind.
  destruct (call (send_attachment self message a) (answers i)) as [t [j|e]];
    [|done].
  by rewrite IH.
Qed.

Lemma body_calls self message answers :
  handle_discord_message_body self message answers
  = (telegram_msg ← calls answers 0 (requests self message) None;
     map_messages self message telegram_msg).
Proof.
  unfold handle_discord_message_body, requests, send_text,
    first_attachment_call.
  destruct (nonempty (content message)); simpl;
    unfold mbind, io_bind, mret, io_ret, call.
  - destruct (answers 0%nat) as [j|]; simpl; [|done].
    rewrite send_attachments_calls.
    destruct (calls answers 1 _ (Some j)) as [t [tm|e]]; simpl; [|done].
    by destruct (map_messages self message tm).
  - rewrite send_attachments_calls.
    destruct (calls answers 0 _ None) as [t [tm|e]]; simpl; [|done].
    by destruct (map_messages self message tm).
Qed.

(** When every call returns, every request is made and the value is the
    last answer. *)
Lemma calls_return answers reqs : ∀ i telegram_msg,
  (∀ k, (k < length reqs)%nat → returns (answers (i + k)%nat)) →
  calls answers i reqs telegram_msg
  = (map Request reqs,
     Done (match reqs with
           | [] => telegram_msg
           | _ => json_of (answers (i + length reqs - 1)%nat)
           end)).
Proof.
  induction reqs as [|r reqs IH]; intros i telegram_msg Hret; simpl; [done|].
  destruct (Hret 0%nat) as [j Hj]; [simpl; lia|].
  rewrite Nat.add_0_r in Hj. unfold mbind, io_bind, call. rewrite Hj.
  rewrite IH.
  - simpl. do 2 f_equal. destruct reqs as [|r' reqs]; simpl.
    + replace (i + 1 - 1)%nat with i by lia. by rewrite Hj.
    + f_equal. f_equal. lia.
  - intros k Hk. replace (S i + k)%nat with (i + S k)%nat by lia.
    apply Hret. simpl. lia.
Qed.

(** When the [k]-th call is the first to raise, the calls after it are
    not made. *)
Lemma calls_raise answers reqs : ∀ i k telegram_msg,
  (k < length reqs)%nat →
  (∀ k', (k' < k)%nat → returns (answers (i + k')%nat)) →
  answers (i + k)%nat = Raises →
  calls answers i reqs telegram_msg
  = (map Request (take (S k) reqs), Raise NetworkError).
Proof.
  induction reqs as [|r reqs IH]; intros i k telegram_msg Hk Hret Hraise;
    simpl in *; [lia|].
  unfold mbind, io_bind, call. destruct k as [|k].
  - rewrite Nat.add_0_r in Hraise. rewrite Hraise. simpl. by rewrite ?take_0.
  - destruct (Hret 0%nat) as [j Hj]; [lia|].
    rewrite Nat.add_0_r in Hj. rewrite Hj.
    rewrite (IH (S i) k); [done|lia| |].
    + intros k' Hk'. replace (S i + k')%nat with (i + S k')%nat by lia.
      apply Hret. lia.
    + by replace (S i + k)%nat with (i + S k)%nat by lia.
Qed.

(** The trace of a run is a prefix of the requests, whatever the answers. *)
Lemma calls_trace answers reqs : ∀ i telegram_msg,
  ∃ n, fst (calls answers i reqs telegram_msg) = map Request (take n reqs).
Proof.
  induction reqs as [|r reqs IH]; intros i telegram_msg; simpl.
  - by exists 0%nat.
  - unfold mbind, io_bind, call. destruct (answers i) as [j|].
    + destruct (IH (S i) (Some j)) as [n Hn].
      destruct (calls answers (S i) reqs (Some j)) as [t res]. simpl in *.
      exists (S n). simpl. by rewrite Hn.
    + exists 1%nat. simpl. by rewrite ?take_0.
Qed.

Lemma map_messages_trace self message telegram_msg :
  fst (map_messages self message telegram_msg) = [].
Proof.
  unfold map_messages. destruct telegram_msg as [j|]; [|done].
  destruct (ok j); [|done]. by destruct (result_message_id j).
Qed.

(** The trace of the handler: some first requests of the message, then
    the error line if something raised. *)
Lemma handler_trace self message answers :
  ∃ n tail,
    snd (handle_discord_message self message answers)
    = map Request (take n (requests self message)) ++ tail
    ∧ (tail = [] ∨ tail = [error_line]).
Proof.
  unfold handle_discord_message. rewrite body_calls.
  destruct (calls_trace answers (requests self message) 0 None) as [n Hn].
  unfold mbind, io_bind.
  destruct (calls answers 0 (requests self message) None) as [t [tm|e]];
    simpl in Hn; subst t.
  - pose proof (map_messages_trace self message tm) as Hm.
    destruct (map_messages self message tm) as [t' [s'|e]]; simpl in *; subst t'.
    + exists n, []. auto.
    + exists n, [error_line]. rewrite app_nil_r. auto.
  - exists n, [error_line]. auto.
Qed.

(** Every send returns: all the requests are made, then the last answer
    decides what is recorded. *)
Lemma handler_returns self message answers :
  (∀ k, (k < length (requests self message))%nat → returns (answers k)) →
  handle_discord_message_body self message answers
  = (map Request (requests self message),
     snd (map_messages self message
            (final_answer answers (length (requests self message))))).
Proof.
  intros Hret. rewrite body_calls, calls_return by done.
  unfold mbind, io_bind.
  replace (match requests self message with
           | [] => None
           | _ :: _ => json_of (answers (0 + length (requests self message) - 1)%nat)
           end)
    with (final_answer answers (length (requests self message))).
  - pose proof (map_messages_trace self message
        (final_answer answers (length (requests self message)))) as Hm.
    destruct (map_messages self message _) as [t' r]; simpl in *; subst t'.
    by rewrite app_nil_r.
  - destruct (requests self message) as [|r l]; simpl; [done|].
    by rewrite Nat.sub_0_r.
Qed.

(** The [k]-th send is the first to raise: the later ones are not made,
    the error is logged once, nothing is recorded. *)
Lemma handler_raises self message answers k :
  (k < length (requests self message))%nat →
  (∀ k', (k' < k)%nat → returns (answers k')) →
  answers k = Raises →
  handle_discord_message self message answers
  = (self, map Request (take (S k) (requests self message)) ++ [error_line]).
Proof.
  intros Hk Hret Hraise. unfold handle_discord_message.
  rewrite body_calls, (calls_raise answers _ 0 k) by done.
  done.
Qed.

Lemma send_attachment_hint self message a :
  reply_hint (send_attachment self message a)
  = truthy_opt (reply_to self message).
Proof.
  unfold send_attachment. destruct (content_type a) as [ct|]; [|done].
  destruct (nonempty ct); [|done].
  destruct (startswith ct "image/"); [done|].
  by destruct (startswith ct "video/").
Qed.

Lemma requests_hint self message r :
  r ∈ requests self message →
  reply_hint r = truthy_opt (reply_to self message).
Proof.
  unfold requests. rewrite elem_of_app, list_elem_of_fmap.
  intros [Hr|(a & -> & _)].
  - destruct (nonempty (content message)); [|by apply elem_of_nil in Hr].
    apply list_elem_of_singleton in Hr. by subst r.
  - apply send_attachment_hint.
Qed.

Lemma sent_requests (l : list tg_request) : sent (map Request l) = l.
Proof. induction l as [|r l IH]; [done|]. unfold sent in *. cbn. by f_equal. Qed.

Lemma sent_app (t1 t2 : list event) : sent (t1 ++ t2) = sent t1 ++ sent t2.
Proof. unfold sent. apply omap_app. Qed.

Lemma sent_handler self message answers :
  ∃ n, sent (snd (handle_discord_message self message answers))
       = take n (requests self message).
Proof.
  destruct (handler_trace self message answers) as (n & tail & -> & Htail).
  exists n. rewrite sent_app, sent_requests.
  destruct Htail as [-> | ->]; simpl; by rewrite app_nil_r.
Qed.

Lemma sent_all_return self message answers :
  (∀ k, (k < length (requests self message))%nat → returns (answers k)) →
  sent (snd (handle_discord_message self message answers))
  = requests self message.
Proof.
  intros Hret. unfold handle_discord_message.
  rewrite handler_returns by done.
  destruct (snd (map_messages self message _)) as [s'|e]; simpl.
  - apply sent_requests.
  - rewrite sent_app, sent_requests. simpl. by rewrite app_nil_r.
Qed.

(** ** An empty message *)

(** C10: a Discord message with empty text and no attachment makes the
    handler send nothing, log nothing and leave the object, hence all four
    tables, as it was. *)
Theorem empty_message_is_ignored self message answers :
  content message = "" →
  attachments message = [] →
  handle_discord_message self message answers = (self, []).
Proof.
  intros Hc Ha.
  unfold handle_discord_message, handle_discord_message_body, send_text,
    first_attachment_call.
  by rewrite Hc, Ha.
Qed.

Lemma empty_message_is_ignored_witness :
  handle_discord_message sample_sync (ann_says 1 "" []) (always Raises)
  = (sample_sync, []).
Proof. by apply empty_message_is_ignored. Defined.

(** ** Classification of attachments *)

(** The call of one attachment, by its category. *)
Lemma send_attachment_category self message a :
  send_attachment self message a
  = primitive_request (category (content_type a)) (telegram_chat_id self)
      (url a) (caption message) (truthy_opt (reply_to self message)).
Proof.
  unfold send_attachment, category.
  destruct (content_type a) as [ct|]; [|done].
  destruct ct as [|c ct]; [done|]. simpl nonempty. cbv iota.
  destruct (startswith (String c ct) "image/"); [done|].
  by destruct (startswith (String c ct) "video/").
Qed.

(** C9: the call made for an attachment is the photo, video or document
    primitive chosen by its declared content type, on the attachment's URL;
    and when Telegram answers every call of the run, its sends are the
    text line (if any) followed by exactly these calls, one per attachment,
    in order. *)
Theorem attachment_goes_by_category self message :
  (∀ a,
     send_attachment self message a
     = primitive_request (category (content_type a)) (telegram_chat_id self)
         (url a) (caption message) (truthy_opt (reply_to self message)))
  ∧ (∀ answers,
       (∀ k, (k < length (requests self message))%nat → returns (answers k)) →
       sent (snd (handle_discord_message self message answers))
       = (if nonempty (content message)
          then [sendMessage (telegram_chat_id self) (text message)
                  (truthy_opt (reply_to self message))]
          else [])
         ++ map (send_attachment self message) (attachments message)).
Proof.
  split.
  - apply send_attachment_category.
  - intros answers Hret. by rewrite sent_all_return.
Qed.

(** ** Replies *)

Lemma map_messages_well_formed self message answers n :
  (∀ k, (k < n)%nat → well_formed (answers k)) →
  ∃ self', map_messages self message (final_answer answers n)
           = ([], Done self').
Proof.
  intros Hwf. destruct n as [|n]; simpl; [by eexists|].
  destruct (Hwf n) as (j & -> & Hid); [lia|]. simpl. unfold map_messages.
  destruct (ok j); [|by eexists].
  destruct Hid as [t ->]; [done|]. by eexists.
Qed.

(** Proper answers to every call of the run: the trace is the sends
    alone, no log line. *)
Lemma handler_trace_well_formed self message answers :
  (∀ k, (k < length (requests self message))%nat → well_formed (answers k)) →
  snd (handle_discord_message self message answers)
  = map Request (requests self message).
Proof.
  intros Hwf. unfold handle_discord_message. rewrite handler_returns.
  - destruct (map_messages_well_formed self message answers
                (length (requests self message)) Hwf) as [self' ->]. done.
  - intros k Hk. destruct (Hwf k Hk) as (j & -> & _). by exists j.
Qed.

(** C8: when the message replies to a message id that has no entry in the
    Discord-to-Telegram table, the reply target resolves to none without
    raising, every send the handler makes is without a reply-to hint, and
    when Telegram answers every call properly nothing is logged: the trace
    is the sends alone. *)
Theorem reply_to_unrecorded_is_unthreaded self message answers ref_id :
  reference message = Some (Some ref_id) →
  discord_to_telegram self !! str ref_id = None →
  reply_to self message = None
  ∧ (∀ r, r ∈ sent (snd (handle_discord_message self message answers)) →
          reply_hint r = None)
  ∧ ((∀ k, (k < length (requests self message))%nat →
          well_formed (answers k)) →
     snd (handle_discord_message self message answers)
     = map Request (requests self message)).
Proof.
  intros Href Hmiss.
  assert (reply_to self message = None) as Hnone.
  { unfold reply_to. rewrite Href, Hmiss. by destruct (truthy ref_id). }
  split; [done|]. split.
  - intros r Hr. destruct (sent_handler self message answers) as [n Hn].
    rewrite Hn in Hr. apply (subseteq_take n) in Hr.
    rewrite (requests_hint self message r Hr), Hnone. done.
  - apply handler_trace_well_formed.
Qed.

Lemma reply_to_unrecorded_is_unthreaded_witness :
  reply_to sample_sync (replies_to (ann_says 2 "yes" [png]) 1) = None
  ∧ (∀ r, r ∈ sent (snd (handle_discord_message sample_sync
                            (replies_to (ann_says 2 "yes" [png]) 1)
                            (always (succeeds 100)))) →
          reply_hint r = None)
  ∧ ((∀ k, (k < length (requests sample_sync
                           (replies_to (ann_says 2 "yes" [png]) 1)))%nat →
          well_formed ((always (succeeds 100)) k)) →
     snd (handle_discord_message sample_sync
            (replies_to (ann_says 2 "yes" [png]) 1) (always (succeeds 100)))
     = map Request (requests sample_sync
                      (replies_to (ann_says 2 "yes" [png]) 1))).
Proof.
  apply (reply_to_unrecorded_is_unthreaded sample_sync
           (replies_to (ann_says 2 "yes" [png]) 1) (always (succeeds 100)) 1);
    reflexivity.
Defined.

(** ** What is recorded *)

(** Among the first [n] calls either all return or one is the first to
    raise. *)
Lemma first_raise (answers : nat → tg_result) (n : nat) :
  (∀ k, (k < n)%nat → returns (answers k))
  ∨ ∃ k, (k < n)%nat ∧ (∀ k', (k' < k)%nat → returns (answers k'))
         ∧ answers k = Raises.
Proof.
  induction n as [|n [IH|(k & Hk & Hret & Hraise)]].
  - left. intros k Hk. lia.
  - destruct (answers n) as [j|] eqn:Hn.
    + left. intros k Hk. destruct (decide (k = n)) as [->|Hne].
      * by exists j.
      * apply IH. lia.
    + right. exists n. split; [lia|]. split; [|done].
      intros k' Hk'. by apply IH.
  - right. exists k. split; [lia|done].
Qed.

(** What a run records, by the answer to its last send. *)
Lemma handler_state self message answers :
  fst (handle_discord_message self message answers) = self
  ∨ ∃ n j telegram_msg_id,
      length (requests self message) = S n
      ∧ (∀ k, (k ≤ n)%nat → returns (answers k))
      ∧ answers n = Returns j
      ∧ ok j = true
      ∧ result_message_id j = Some telegram_msg_id
      ∧ handle_discord_message self message answers
        = (record_direct self message telegram_msg_id,
           map Request (requests self message)).
Proof.
  destruct (first_raise answers (length (requests self message)))
    as [Hret|(k & Hk & Hret & Hraise)].
  - unfold handle_discord_message. rewrite handler_returns by done.
    destruct (length (requests self message)) as [|n] eqn:Hlen; simpl;
      [by left|].
    destruct (Hret n) as [j Hj]; [lia|]. rewrite Hj. simpl.
    destruct (ok j) eqn:Hok; [|by left].
    destruct (result_message_id j) as [t|] eqn:Hid; [|by left].
    right. exists n, j, t. repeat split; try done.
    intros k Hk. apply Hret. lia.
  - left. by rewrite (handler_raises self message answers k).
Qed.

(** The last send succeeds: its id is the one recorded, also when earlier
    sends returned other ids. *)
Lemma last_send_recorded self message answers n j telegram_msg_id :
  length (requests self message) = S n →
  (∀ k, (k < n)%nat → returns (answers k)) →
  answers n = Returns j →
  ok j = true →
  result_message_id j = Some telegram_msg_id →
  handle_discord_message self message answers
  = (record_direct self message telegram_msg_id,
     map Request (requests self message)).
Proof.
  intros Hlen Hret Hn Hok Hid. unfold handle_discord_message.
  rewrite handler_returns.
  - rewrite Hlen. simpl. rewrite Hn. simpl. by rewrite Hok, Hid.
  - intros k Hk. destruct (decide (k = n)) as [->|Hne].
    + rewrite Hn. by eexists.
    + apply Hret. lia.
Qed.

(** The last send fails: nothing is recorded, even if earlier sends
    succeeded. *)
Lemma last_send_failed self message answers n j :
  length (requests self message) = S n →
  (∀ k, (k < n)%nat → returns (answers k)) →
  answers n = Returns j →
  ok j = false →
  handle_discord_message self message answers
  = (self, map Request (requests self message)).
Proof.
  intros Hlen Hret Hn Hok. unfold handle_discord_message.
  rewrite handler_returns.
  - rewrite Hlen. simpl. rewrite Hn. simpl. by rewrite Hok.
  - intros k Hk. destruct (decide (k = n)) as [->|Hne].
    + rewrite Hn. by eexists.
    + apply Hret. lia.
Qed.

(** C2 fails as stated: text and two attachments; the text line and the
    first attachment are sent with success (Telegram ids 100 and 101), the
    second attachment is refused.  All three sends are made and the last
    successful one is 101, yet nothing is recorded for the message. *)
Lemma last_successful_send_counterexample :
  sent (snd (handle_discord_message sample_sync (ann_says 1 "hi" [png; mp4])
               (script [succeeds 100; succeeds 101; fails])))
  = requests sample_sync (ann_says 1 "hi" [png; mp4])
  ∧ last_successful (script [succeeds 100; succeeds 101; fails])
      (length (requests sample_sync (ann_says 1 "hi" [png; mp4])))
    = Some 101
  ∧ discord_to_telegram
      (fst (handle_discord_message sample_sync (ann_says 1 "hi" [png; mp4])
              (script [succeeds 100; succeeds 101; fails]))) !! "1"
    = None
  ∧ telegram_to_discord
      (fst (handle_discord_message sample_sync (ann_says 1 "hi" [png; mp4])
              (script [succeeds 100; succeeds 101; fails]))) !! 101
    = None.
Proof. repeat split; reflexivity. Qed.

(** C2, amended: only the last outbound send of a run (the text line when
    there is no attachment, the final attachment otherwise) can be
    recorded.  Either the object is left as it was, or every send of the
    message was made, the last of them was answered with success and a
    message id, and the two tables get exactly one new pair: the source
    message's id with that id.  When the sends return and the last one is
    answered with success, that pair is recorded, whatever ids the
    earlier sends returned; when the last one is answered without
    success, or a send raises, nothing is recorded, even if an earlier
    send succeeded. *)
Theorem only_last_send_is_recorded self message answers :
  (fst (handle_discord_message self message answers) = self
   ∨ ∃ n j telegram_msg_id,
       sent (snd (handle_discord_message self message answers))
       = requests self message
       ∧ length (requests self message) = S n
       ∧ (∀ k, (k ≤ n)%nat → returns (answers k))
       ∧ answers n = Returns j
       ∧ ok j = true
       ∧ result_message_id j = Some telegram_msg_id
       ∧ last_successful answers (length (requests self message))
         = Some telegram_msg_id
       ∧ discord_to_telegram (fst (handle_discord_message self message answers))
         = <[str (id message) :=
               (telegram_msg_id, author_display_name message, author_id message)]>
             (discord_to_telegram self)
       ∧ telegram_to_discord (fst (handle_discord_message self message answers))
         = <[telegram_msg_id :=
               (str (id message), author_display_name message, author_id message)]>
             (telegram_to_discord self))
  ∧ (∀ n j telegram_msg_id,
       length (requests self message) = S n →
       (∀ k, (k < n)%nat → returns (answers k)) →
       answers n = Returns j →
       ok j = true →
       result_message_id j = Some telegram_msg_id →
       discord_to_telegram (fst (handle_discord_message self message answers))
       !! str (id message)
       = Some (telegram_msg_id, author_display_name message, author_id message)
       ∧ telegram_to_discord (fst (handle_discord_message self message answers))
         !! telegram_msg_id
         = Some (str (id message), author_display_name message,
                 author_id message))
  ∧ (∀ n j,
       length (requests self message) = S n →
       (∀ k, (k < n)%nat → returns (answers k)) →
       answers n = Returns j →
       ok j = false →
       handle_discord_message self message answers
       = (self, map Request (requests self message)))
  ∧ (∀ k,
       (k < length (requests self message))%nat →
       (∀ k', (k' < k)%nat → returns (answers k')) →
       answers k = Raises →
       handle_discord_message self message answers
       = (self,
          map Request (take (S k) (requests self message)) ++ [error_line])).
Proof.
  refine (conj _ (conj _ (conj _ _))).
  - destruct (handler_state self message answers)
      as [Hsame|(n & j & t & Hlen & Hret & Hn & Hok & Hid & Hrun)]; [by left|].
    right. exists n, j, t. rewrite Hrun. simpl.
    rewrite sent_requests, Hlen. simpl. by rewrite Hn, Hok, Hid.
  - intros n j t Hlen Hret Hn Hok Hid.
    rewrite (last_send_recorded self message answers n j t) by done.
    simpl. by rewrite !lookup_insert_eq.
  - apply last_send_failed.
  - apply handler_raises.
Qed.

Lemma only_last_send_is_recorded_witness :
  (discord_to_telegram
     (fst (handle_discord_message sample_sync (ann_says 1 "hi" [png])
             (script [succeeds 100; succeeds 101]))) !! str 1
   = Some (101, "Ann", 9)
   ∧ telegram_to_discord
       (fst (handle_discord_message sample_sync (ann_says 1 "hi" [png])
               (script [succeeds 100; succeeds 101]))) !! 101
     = Some (str 1, "Ann", 9))
  ∧ handle_discord_message sample_sync (ann_says 1 "hi" [png; mp4])
      (script [succeeds 100; succeeds 101; fails])
    = (sample_sync,
       map Request (requests sample_sync (ann_says 1 "hi" [png; mp4]))).
Proof.
  split.
  - apply (proj1 (proj2 (only_last_send_is_recorded sample_sync
                           (ann_says 1 "hi" [png])
                           (script [succeeds 100; succeeds 101])))
             1%nat {| ok := true; result_message_id := Some 101 |} 101);
      [reflexivity | | reflexivity | reflexivity | reflexivity].
    intros [|k] Hk; [by eexists | lia].
  - apply (proj1 (proj2 (proj2 (only_last_send_is_recorded sample_sync
                                  (ann_says 1 "hi" [png; mp4])
                                  (script [succeeds 100; succeeds 101; fails]))))
             2%nat {| ok := false; result_message_id := None |});
      [reflexivity | | reflexivity | reflexivity].
    intros [|[|k]] Hk; [by eexists | by eexists | lia].
Defined.

(** ** Text together with attachments *)

(** C3 does not hold of the code: with text and attachments the handler
    sends the text line as a message of its own, and then every attachment
    with a caption that repeats the text. *)
Theorem text_is_sent_alone_and_in_captions self message answers :
  nonempty (content message) = true →
  attachments message ≠ [] →
  (∀ k, (k < length (requests self message))%nat → returns (answers k)) →
  sent (snd (handle_discord_message self message answers))
  = sendMessage (telegram_chat_id self)
      (balloon +:+ " <b>" +:+ author_display_name message +:+ "</b>: "
         +:+ content message)
      (truthy_opt (reply_to self message))
    :: map (λ a,
         primitive_request (category (content_type a)) (telegram_chat_id self)
           (url a)
           ("<b>" +:+ author_display_name message +:+ "</b>: "
              +:+ content message)
           (truthy_opt (reply_to self message)))
       (attachments message).
Proof.
  intros Hc _ Hret. rewrite sent_all_return by done.
  unfold requests. rewrite Hc. simpl. f_equal.
  apply map_ext. intros a. rewrite send_attachment_category.
  unfold caption. by rewrite Hc.
Qed.

Lemma text_is_sent_alone_and_in_captions_witness :
  sent (snd (handle_discord_message sample_sync (ann_says 1 "hi" [png])
               (always (succeeds 100))))
  = [sendMessage (-7) (balloon +:+ " <b>Ann</b>: hi") None;
     sendPhoto (-7) "https://cdn.example/a.png" "<b>Ann</b>: hi" None].
Proof.
  apply (text_is_sent_alone_and_in_captions sample_sync
           (ann_says 1 "hi" [png]) (always (succeeds 100)));
    [reflexivity | discriminate | intros k _; by eexists].
Defined.

(** ** A send that fails *)

(** C6 fails as stated.  Two attachments, no text: when the first send is
    answered with a non-success result, the second is sent but nothing is
    logged for the first; when the first send raises, the error is logged
    but the second attachment is never sent. *)
Lemma failed_send_counterexample :
  snd (handle_discord_message sample_sync (ann_says 1 "" [png; mp4])
         (script [fails; succeeds 101]))
  = [Request (sendPhoto (-7) "https://cdn.example/a.png" "" None);
     Request (sendVideo (-7) "https://cdn.example/b.mp4" "" None)]
  ∧ snd (handle_discord_message sample_sync (ann_says 1 "" [png; mp4])
           (script [Raises; succeeds 101]))
    = [Request (sendPhoto (-7) "https://cdn.example/a.png" "" None);
       Log ERROR "Error processing Discord message"].
Proof. split; reflexivity. Qed.

(** C6, amended: a send of an attachment that is answered with a
    non-success result is skipped silently: with proper answers the trace
    is every send of the message, once each and in order, and no log line.
    A send that raises ends the handler: the sends after it are not made,
    the error is logged once, the object is left as it was, and the
    handler returns. *)
Theorem failed_send_is_skipped_or_ends_the_run self message answers :
  (∀ i j,
     (i < length (attachments message))%nat →
     answers (first_attachment_call message + i)%nat = Returns j →
     ok j = false →
     (∀ k, (k < length (requests self message))%nat →
           well_formed (answers k)) →
     snd (handle_discord_message self message answers)
     = map Request (requests self message))
  ∧ (∀ k,
       (k < length (requests self message))%nat →
       (∀ k', (k' < k)%nat → returns (answers k')) →
       answers k = Raises →
       handle_discord_message self message answers
       = (self,
          map Request (take (S k) (requests self message)) ++ [error_line])).
Proof.
  split.
  - intros i j _ _ _. apply handler_trace_well_formed.
  - intros k. apply handler_raises.
Qed.

Lemma failed_send_is_skipped_or_ends_the_run_witness :
  snd (handle_discord_message sample_sync (ann_says 1 "" [png; mp4])
         (script [fails; succeeds 101]))
  = map Request (requests sample_sync (ann_says 1 "" [png; mp4]))
  ∧ handle_discord_message sample_sync (ann_says 1 "" [png; mp4])
      (script [Raises; succeeds 101])
    = (sample_sync,
       map Request (take 1 (requests sample_sync (ann_says 1 "" [png; mp4])))
       ++ [error_line]).
Proof.
  split.
  - apply (proj1 (failed_send_is_skipped_or_ends_the_run sample_sync
                    (ann_says 1 "" [png; mp4]) (script [fails; succeeds 101]))
             0%nat {| ok := false; result_message_id := None |});
      [simpl; lia | reflexivity | reflexivity |].
    intros [|[|k]] Hk; [by eexists | by eexists | simpl in Hk; lia].
  - apply (proj2 (failed_send_is_skipped_or_ends_the_run sample_sync
                    (ann_says 1 "" [png; mp4]) (script [Raises; succeeds 101]))
             0%nat); [simpl; lia | intros k' Hk'; lia | reflexivity].
Defined.

(** ** Deleting on the Discord side *)

Lemma discord_delete_miss self message answer :
  discord_to_telegram self !! str (id message) = None →
  handle_discord_message_delete self message answer = (self, []).
Proof.
  intros Hmiss.
  unfold handle_discord_message_delete, handle_discord_message_delete_body.
  by rewrite Hmiss.
Qed.

Lemma discord_delete_ok self message j t n u :
  discord_to_telegram self !! str (id message) = Some (t, n, u) →
  ok j = true →
  handle_discord_message_delete self message (Returns j)
  = (set_direct self
       (delete (str (id message)) (discord_to_telegram self))
       (delete t (telegram_to_discord self)),
     [Request (deleteMessage (telegram_chat_id self) t);
      Log INFO "Message deleted in Telegram"]).
Proof.
  intros Hd Hok.
  unfold handle_discord_message_delete, handle_discord_message_delete_body.
  rewrite Hd. simpl. by rewrite Hok.
Qed.

Lemma discord_delete_not_ok self message j t n u :
  discord_to_telegram self !! str (id message) = Some (t, n, u) →
  ok j = false →
  handle_discord_message_delete self message (Returns j)
  = (self,
     [Request (deleteMessage (telegram_chat_id self) t);
      Log WARNING "Failed to delete message in Telegram"]).
Proof.
  intros Hd Hok.
  unfold handle_discord_message_delete, handle_discord_message_delete_body.
  rewrite Hd. simpl. by rewrite Hok.
Qed.

Lemma discord_delete_raises self message t n u :
  discord_to_telegram self !! str (id message) = Some (t, n, u) →
  handle_discord_message_delete self message Raises
  = (self,
     [Request (deleteMessage (telegram_chat_id self) t);
      Log ERROR "Error deleting message in Telegram"]).
Proof.
  intros Hd.
  unfold handle_discord_message_delete, handle_discord_message_delete_body.
  by rewrite Hd.
Qed.

(** The Discord delete handler never touches the webhook tables: a
    webhook post's correlation is removed from the Telegram side only. *)
Lemma discord_delete_keeps_relay self message answer :
  webhook_to_telegram (fst (handle_discord_message_delete self message answer))
  = webhook_to_telegram self
  ∧ telegram_to_webhook (fst (handle_discord_message_delete self message answer))
    = telegram_to_webhook self.
Proof.
  destruct (discord_to_telegram self !! str (id message))
    as [[[t n] u]|] eqn:Hd; [|by rewrite discord_delete_miss].
  destruct answer as [j|];
    [|by rewrite (discord_delete_raises self message t n u)].
  destruct (ok j) eqn:Hok;
    [|by rewrite (discord_delete_not_ok self message j t n u)].
  by rewrite (discord_delete_ok self message j t n u).
Qed.

(** The deletion of a webhook post does not reach the handler. *)
Lemma webhook_post_delete_is_ignored self message answer n :
  webhook_id message = Some n →
  n ≠ 0 →
  on_message_delete self message answer = (self, []).
Proof.
  intros Hw Hn. unfold on_message_delete. rewrite Hw. simpl.
  assert (truthy n = true) as ->; [|done].
  unfold truthy. by apply negb_true_iff, Z.eqb_neq.
Qed.

(** C7: the Discord delete handler changes the object exactly when there
    is a correlation for the deleted message and Telegram answers the
    outbound delete with success.  Without a correlation it calls nothing
    and logs nothing.  With one it makes exactly one call, the delete of
    the recorded Telegram message; on success both entries of the pair are
    removed, and when the call does not succeed (a non-success answer, or
    the call raises) the object, and with it the correlation, is left as
    it was. *)
Theorem discord_delete_mutates_iff_success self message answer :
  (fst (handle_discord_message_delete self message answer) ≠ self
   ↔ delete_succeeded self message answer)
  ∧ (discord_to_telegram self !! str (id message) = None →
     handle_discord_message_delete self message answer = (self, []))
  ∧ (∀ t n u,
       discord_to_telegram self !! str (id message) = Some (t, n, u) →
       sent (snd (handle_discord_message_delete self message answer))
       = [deleteMessage (telegram_chat_id self) t]
       ∧ (delete_succeeded self message answer →
          discord_to_telegram
            (fst (handle_discord_message_delete self message answer))
          = delete (str (id message)) (discord_to_telegram self)
          ∧ telegram_to_discord
              (fst (handle_discord_message_delete self message answer))
            = delete t (telegram_to_discord self))
       ∧ (¬ delete_succeeded self message answer →
          fst (handle_discord_message_delete self message answer) = self)).
Proof.
  refine (conj _ (conj _ _)).
  - split.
    + intros Hne.
      destruct (discord_to_telegram self !! str (id message))
        as [[[t n] u]|] eqn:Hd;
        [|by rewrite discord_delete_miss in Hne].
      destruct answer as [j|];
        [|by rewrite (discord_delete_raises self message t n u) in Hne].
      destruct (ok j) eqn:Hok;
        [|by rewrite (discord_delete_not_ok self message j t n u) in Hne].
      by exists t, n, u, j.
    + intros (t & n & u & j & Hd & -> & Hok).
      rewrite (discord_delete_ok self message j t n u) by done. simpl.
      intros Heq. apply (f_equal discord_to_telegram) in Heq. simpl in Heq.
      apply (f_equal (λ m, m !! str (id message))) in Heq.
      by rewrite lookup_delete_eq, Hd in Heq.
  - apply discord_delete_miss.
  - intros t n u Hd. refine (conj _ (conj _ _)).
    + destruct answer as [j|];
        [|by rewrite (discord_delete_raises self message t n u)].
      destruct (ok j) eqn:Hok.
      * by rewrite (discord_delete_ok self message j t n u).
      * by rewrite (discord_delete_not_ok self message j t n u).
    + intros (t' & n' & u' & j & Hd' & -> & Hok).
      by rewrite (discord_delete_ok self message j t n u).
    + intros Hnot. destruct answer as [j|];
        [|by rewrite (discord_delete_raises self message t n u)].
      destruct (ok j) eqn:Hok;
        [|by rewrite (discord_delete_not_ok self message j t n u)].
      destruct Hnot. by exists t, n, u, j.
Qed.

(** ** Deleting on the Telegram side *)

Lemma delete_webhook_message_done self w message_identifier :
  ∃ t, delete_webhook_message self w message_identifier = (t, Done tt).
Proof.
  unfold delete_webhook_message.
  destruct (extract_webhook_info (webhook_url self)) as [[wid|] [tok|]];
    try by eexists.
  destruct (nonempty wid && nonempty tok); [|by eexists].
  unfold mbind, io_bind, emit. destruct (delete_status w) as [status|]; simpl.
  - destruct (status =? 204); by eexists.
  - by eexists.
Qed.

Lemma telegram_delete_state self upd w :
  fst (handle_telegram_message_delete self upd w)
  = match deleted_message upd with
    | Some (Some message_id) =>
        if truthy message_id then after_telegram_delete self message_id
        else self
    | _ => self
    end.
Proof.
  unfold handle_telegram_message_delete, handle_telegram_message_delete_body,
    after_telegram_delete.
  destruct (deleted_message upd) as [[message_id|]|]; [|done..].
  destruct (truthy message_id); [|done].
  destruct (telegram_to_discord self !! message_id) as [[[d n] u]|].
  - unfold mbind, io_bind. destruct (channel_found w); [|done].
    by destruct (delete_webhook_message_done self w d) as [t ->].
  - by destruct (telegram_to_webhook self !! message_id).
Qed.

(** An update that carries [deleted_message] goes to the delete handler. *)
Lemma telegram_message_deleted self upd w o :
  deleted_message upd = Some o →
  handle_telegram_message self upd w
  = handle_telegram_message_delete self upd w.
Proof.
  intros Hdel. unfold handle_telegram_message, handle_telegram_message_body.
  rewrite Hdel. by destruct (handle_telegram_message_delete self upd w).
Qed.

(** ** Delete after insert *)

(** C1 fails as stated: the message of Discord id 1 was relayed as
    Telegram message 100 and the pair recorded; the Discord message is
    deleted, Telegram answers the outbound delete with a non-success
    result, and both halves of the pair are still in the tables. *)
Lemma delete_counterexample :
  discord_to_telegram recorded_once !! "1" = Some (100, "Ann", 9)
  ∧ telegram_to_discord recorded_once !! 100 = Some ("1", "Ann", 9)
  ∧ discord_to_telegram
      (fst (handle_discord_message_delete recorded_once
              (ann_says 1 "hi" []) fails)) !! "1"
    = Some (100, "Ann", 9)
  ∧ telegram_to_discord
      (fst (handle_discord_message_delete recorded_once
              (ann_says 1 "hi" []) fails)) !! 100
    = Some ("1", "Ann", 9).
Proof. repeat split; reflexivity. Qed.

(** C1, amended: for a recorded correlation, a delete update for its
    Telegram half (a message id other than 0) removes both halves, and so
    does a delete event for the Discord half of a direct correlation when
    the outbound Telegram delete reports success; a lookup of either half
    then finds nothing. *)
Theorem delete_forgets_both_halves self c :
  recorded self c →
  (∀ upd w,
     deleted_message upd = Some (Some (telegram_half c)) →
     telegram_half c ≠ 0 →
     forgotten (fst (handle_telegram_message self upd w)) c)
  ∧ (∀ message j d t,
       c = Direct d t →
       str (id message) = d →
       ok j = true →
       forgotten (fst (handle_discord_message_delete self message (Returns j)))
         c).
Proof.
  intros Hrec. split.
  - intros upd w Hdel Hnz.
    rewrite (telegram_message_deleted self upd w _ Hdel).
    rewrite telegram_delete_state, Hdel.
    assert (truthy (telegram_half c) = true) as ->.
    { unfold truthy. by apply negb_true_iff, Z.eqb_neq. }
    unfold after_telegram_delete.
    destruct c as [d t|wid t]; simpl in *.
    + destruct Hrec as [_ (n & u & ->)]. simpl.
      by rewrite !lookup_delete_eq.
    + destruct Hrec as (_ & -> & ->). simpl.
      by rewrite !lookup_delete_eq.
  - intros message j d t -> Hd Hok. simpl in *.
    destruct Hrec as [(n & u & Hdt) _]. rewrite <- Hd in Hdt.
    rewrite (discord_delete_ok self message j t n u) by done. simpl.
    by rewrite <- Hd, !lookup_delete_eq.
Qed.

Lemma delete_forgets_both_halves_witness :
  (∀ upd w,
     deleted_message upd = Some (Some 100) →
     100 ≠ 0 →
     forgotten (fst (handle_telegram_message recorded_once upd w))
       (Direct "1" 100))
  ∧ (∀ message j d t,
       Direct "1" 100 = Direct d t →
       str (id message) = d →
       ok j = true →
       forgotten
         (fst (handle_discord_message_delete recorded_once message (Returns j)))
         (Direct "1" 100)).
Proof.
  apply (delete_forgets_both_halves recorded_once (Direct "1" 100)).
  split; [by exists "Ann", 9 | by exists "Ann", 9].
Defined.

(** ** At most one correlation per message *)

Lemma one_correlation_init webhook channel chat :
  at_most_one_correlation (init webhook channel chat).
Proof. intros d t n u Hd. simpl in Hd. by rewrite lookup_empty in Hd. Qed.

Lemma one_correlation_record self message t :
  at_most_one_correlation self →
  unused_discord_id self (str (id message)) →
  unused_telegram_id self t →
  at_most_one_correlation (record_direct self message t).
Proof.
  intros Hinv Hd Ht d0 t0 n0 u0. unfold record_direct. simpl.
  assert (discord_to_telegram self !! str (id message) = None) as Hfree.
  { destruct (discord_to_telegram self !! str (id message))
      as [[[t1 n1] u1]|] eqn:Hl; [|done].
    destruct (Hinv _ _ _ _ Hl) as [(n' & u' & Hback) _].
    by destruct (Hd t1 n' u'). }
  rewrite lookup_insert. case_decide as Hkey.
  - intros [= <- <- <-]. subst d0. split; [|split].
    + exists (author_display_name message), (author_id message).
      by rewrite lookup_insert_eq.
    + intros d' n' u'. rewrite lookup_insert. case_decide; [done|].
      intros Hl. by destruct (Ht d' n' u').
    + intros t' n' u'. rewrite lookup_insert. case_decide; [done|].
      intros Hl. by destruct (Hd t' n' u').
  - intros Hl. destruct (Hinv _ _ _ _ Hl) as ((n' & u' & Hback) & Hd2t & Ht2d).
    assert (t ≠ t0) as Hne by (intros ->; by destruct (Ht d0 n0 u0)).
    split; [|split].
    + exists n', u'. by rewrite lookup_insert_ne.
    + intros d' n1 u1. rewrite lookup_insert. case_decide.
      * intros [= -> _ _]. done.
      * apply Hd2t.
    + intros t' n1 u1. rewrite lookup_insert. case_decide.
      * intros [= Hsame _ _]. done.
      * apply Ht2d.
Qed.

(** Removing a Discord id and the Telegram id it is paired with, from
    either side. *)
Lemma one_correlation_delete self d t :
  at_most_one_correlation self →
  ((∃ n u, discord_to_telegram self !! d = Some (t, n, u))
   ∨ (∃ n u, telegram_to_discord self !! t = Some (d, n, u))) →
  at_most_one_correlation
    (set_direct self (delete d (discord_to_telegram self))
       (delete t (telegram_to_discord self))).
Proof.
  intros Hinv Hpair d0 t0 n0 u0. simpl.
  rewrite lookup_delete. case_decide as Hkey; [done|].
  intros Hl. destruct (Hinv _ _ _ _ Hl) as ((n' & u' & Hback) & Hd2t & Ht2d).
  assert (t ≠ t0) as Hne.
  { intros ->. destruct Hpair as [(n & u & Hp)|(n & u & Hp)].
    - destruct Hkey. by apply (Hd2t d n u).
    - rewrite Hback in Hp. by injection Hp as -> _ _. }
  split; [|split].
  - exists n', u'. by rewrite lookup_delete_ne.
  - intros d' n1 u1. rewrite lookup_delete. case_decide; [done|]. apply Hd2t.
  - intros t' n1 u1. rewrite lookup_delete. case_decide; [done|]. apply Ht2d.
Qed.

Lemma one_correlation_relay self w2t t2w :
  at_most_one_correlation self →
  at_most_one_correlation (set_relay self w2t t2w).
Proof. done. Qed.

(** ** What the Telegram message handler records *)

(** Every path through the Telegram side, one goal each. *)
Ltac telegram_branches :=
  unfold handle_telegram_message, handle_telegram_message_body,
    handle_telegram_message_delete, handle_telegram_message_delete_body,
    relay_content, relay_sticker, relay_file, delete_webhook_message,
    clean_up, get_telegram_user_avatar, download_telegram_file,
    send_webhook_message, mbind, io_bind, mret, io_ret, emit;
  repeat (case_match; simpl in *; simplify_eq).

Lemma clean_up_result w file_path :
  (∃ t, clean_up w file_path = (t, Done tt))
  ∨ (∃ t e, clean_up w file_path = (t, Raise e)).
Proof.
  unfold clean_up. destruct file_path as [p|]; [|left; by eexists].
  destruct (nonempty p && path_exists w); [|left; by eexists].
  destruct (remove_raises w); [right|left]; by repeat eexists.
Qed.

(** The avatar lookup always returns a URL. *)
Lemma get_telegram_user_avatar_result w user_id :
  ∃ t, get_telegram_user_avatar w user_id = (t, Done (avatar w)).
Proof.
  unfold get_telegram_user_avatar, mbind, io_bind, mret, io_ret, emit.
  destruct (avatar_raises w); by eexists.
Qed.

Lemma send_webhook_message_result w data file_path t r :
  send_webhook_message w data file_path = (t, Done r) → r = posted w.
Proof.
  unfold send_webhook_message, posted, mbind, io_bind, mret, io_ret, emit.
  destruct (post w); simpl; congruence.
Qed.

Lemma relay_file_result w data file_id t r :
  relay_file w data file_id = (t, Done r) → r = posted w.
Proof.
  intros Hrun. revert Hrun. unfold posted. telegram_branches; congruence.
Qed.

Lemma relay_sticker_result self w m avatar_url s t r :
  relay_sticker self w m avatar_url s = (t, Done r) →
  r = None ∨ r = posted w.
Proof.
  intros Hrun. revert Hrun. unfold posted.
  telegram_branches; intros; simplify_eq; auto.
Qed.

Lemma relay_content_result self w m avatar_url t r :
  relay_content self w m avatar_url = (t, Done r) →
  r = None ∨ r = posted w.
Proof.
  unfold relay_content.
  destruct (nonempty (default "" (msg_text m)));
    [intros H; right; by apply send_webhook_message_result in H|].
  destruct (msg_photo m) as [|p l];
    [|intros H; right; by apply relay_file_result in H].
  destruct (msg_video m);
    [intros H; right; by apply relay_file_result in H|].
  destruct (msg_document m);
    [intros H; right; by apply relay_file_result in H|].
  destruct (msg_voice m);
    [intros H; right; by apply relay_file_result in H|].
  destruct (msg_animation m);
    [intros H; right; by apply relay_file_result in H|].
  destruct (msg_sticker m) as [s|]; [apply relay_sticker_result|].
  intros [= _ <-]. by left.
Qed.

(** An update that is not a deletion leaves the object as it was or
    records one webhook post, the one the webhook send returned. *)
Lemma telegram_message_state self upd w :
  deleted_message upd = None →
  fst (handle_telegram_message self upd w) = self
  ∨ ∃ message_id webhook_timestamp,
      posted w = Some webhook_timestamp
      ∧ fst (handle_telegram_message self upd w)
        = record_relay self message_id webhook_timestamp.
Proof.
  intros Hdel. unfold handle_telegram_message, handle_telegram_message_body.
  rewrite Hdel. destruct (message upd) as [m|]; [|by left].
  case_bool_decide; [|by left].
  destruct (get_telegram_user_avatar_result w (msg_user_id m)) as [t0 ->].
  unfold mbind, io_bind, mret, io_ret.
  destruct (relay_content self w m (avatar w)) as [t [r|e]] eqn:Hrelay;
    [|by left].
  apply relay_content_result in Hrelay.
  destruct r as [ts|]; [|by left].
  destruct (truthy_opt (msg_message_id m)) as [message_id|]; [|by left].
  right. exists message_id, ts. split; [|done].
  by destruct Hrelay.
Qed.

(** The handler never touches the poll cursor. *)
Lemma telegram_message_offset self upd w :
  telegram_offset (fst (handle_telegram_message self upd w))
  = telegram_offset self.
Proof.
  destruct (deleted_message upd) as [o|] eqn:Hdel.
  - rewrite (telegram_message_deleted self upd w o Hdel).
    rewrite telegram_delete_state, Hdel.
    destruct o as [message_id|]; [|done].
    destruct (truthy message_id); [|done]. unfold after_telegram_delete.
    destruct (telegram_to_discord self !! message_id) as [[[d n] u]|]; [done|].
    by destruct (telegram_to_webhook self !! message_id).
  - destruct (telegram_message_state self upd w Hdel)
      as [->|(message_id & ts & _ & ->)]; done.
Qed.

Lemma one_correlation_telegram_delete self upd w :
  at_most_one_correlation self →
  at_most_one_correlation (fst (handle_telegram_message_delete self upd w)).
Proof.
  intros Hinv. rewrite telegram_delete_state.
  destruct (deleted_message upd) as [[message_id|]|]; [|done..].
  destruct (truthy message_id); [|done]. unfold after_telegram_delete.
  destruct (telegram_to_discord self !! message_id) as [[[d n] u]|] eqn:Hl.
  - apply one_correlation_delete; [done|]. right. by exists n, u.
  - by destruct (telegram_to_webhook self !! message_id).
Qed.

(** C5 fails as stated: after the message of Discord id 1 was recorded
    with Telegram message 100 the invariant holds; the handler runs once
    more on a message of the same id (the source id collides), Telegram
    returns 101, and the entry of 100 still mentions id 1 beside the new
    pair. *)
Lemma one_correlation_counterexample :
  at_most_one_correlation recorded_once
  ∧ discord_to_telegram recorded_twice !! "1" = Some (101, "Ann", 9)
  ∧ telegram_to_discord recorded_twice !! 101 = Some ("1", "Ann", 9)
  ∧ telegram_to_discord recorded_twice !! 100 = Some ("1", "Ann", 9)
  ∧ ¬ at_most_one_correlation recorded_twice.
Proof.
  split; [|repeat split; try reflexivity].
  - apply (one_correlation_record sample_sync (ann_says 1 "hi" []) 100).
    + apply one_correlation_init.
    + intros t n u. simpl. by rewrite lookup_empty.
    + intros d n u. simpl. by rewrite lookup_empty.
  - intros Hinv.
    destruct (Hinv "1" 101 "Ann" 9 eq_refl) as (_ & _ & Hother).
    by specialize (Hother 100 "Ann" 9 eq_refl).
Qed.

(** C5, amended: from a state in which every Discord-to-Telegram entry has
    its mirror entry and no other entry mentions its two ids,
    - the Discord message handler keeps it so when the incoming message's
      id and the ids Telegram returns are not yet mentioned in the tables;
    - the Discord delete handler, the Telegram message handler and the
      Telegram delete handler keep it so always;
    - the Discord message handler changes the object only when its last
      send was answered with success, and the Telegram message handler
      changes it, for an update that is not a deletion, only when the
      webhook send returned a message. *)
Theorem handlers_keep_one_correlation self :
  at_most_one_correlation self →
  (∀ message answers,
     unused_discord_id self (str (id message)) →
     (∀ k j t, answers k = Returns j → result_message_id j = Some t →
               unused_telegram_id self t) →
     at_most_one_correlation
       (fst (handle_discord_message self message answers)))
  ∧ (∀ message answer,
       at_most_one_correlation
         (fst (handle_discord_message_delete self message answer)))
  ∧ (∀ upd w,
       at_most_one_correlation (fst (handle_telegram_message self upd w)))
  ∧ (∀ upd w,
       at_most_one_correlation
         (fst (handle_telegram_message_delete self upd w)))
  ∧ (∀ message answers,
       fst (handle_discord_message self message answers) ≠ self →
       ∃ n j,
         sent (snd (handle_discord_message self message answers))
         = requests self message
         ∧ length (requests self message) = S n
         ∧ answers n = Returns j
         ∧ ok j = true)
  ∧ (∀ upd w,
       deleted_message upd = None →
       posted w = None →
       fst (handle_telegram_message self upd w) = self).
Proof.
  intros Hinv. refine (conj _ (conj _ (conj _ (conj _ (conj _ _))))).
  - intros message answers Hd Ht.
    destruct (handler_state self message answers)
      as [->|(n & j & t & _ & _ & Hn & _ & Hid & ->)]; [done|].
    simpl. apply one_correlation_record; [done..|]. by apply (Ht n j).
  - intros message answer.
    destruct (discord_to_telegram self !! str (id message))
      as [[[t n] u]|] eqn:Hd; [|by rewrite discord_delete_miss].
    destruct answer as [j|];
      [|by rewrite (discord_delete_raises self message t n u)].
    destruct (ok j) eqn:Hok;
      [|by rewrite (discord_delete_not_ok self message j t n u)].
    rewrite (discord_delete_ok self message j t n u) by done. simpl.
    apply one_correlation_delete; [done|]. left. by exists n, u.
  - intros upd w. destruct (deleted_message upd) as [o|] eqn:Hdel.
    + rewrite (telegram_message_deleted self upd w o Hdel).
      by apply one_correlation_telegram_delete.
    + destruct (telegram_message_state self upd w Hdel)
        as [->|(message_id & ts & _ & ->)]; [done|].
      by apply one_correlation_relay.
  - intros upd w. by apply one_correlation_telegram_delete.
  - intros message answers Hne.
    destruct (handler_state self message answers)
      as [Hsame|(n & j & t & Hlen & _ & Hn & Hok & _ & Hrun)]; [done|].
    exists n, j. rewrite Hrun. simpl. by rewrite sent_requests.
  - intros upd w Hdel Hpost.
    destruct (telegram_message_state self upd w Hdel)
      as [->|(message_id & ts & Hts & _)]; [done|congruence].
Qed.

Lemma handlers_keep_one_correlation_witness :
  (∀ message answers,
     unused_discord_id recorded_once (str (id message)) →
     (∀ k j t, answers k = Returns j → result_message_id j = Some t →
               unused_telegram_id recorded_once t) →
     at_most_one_correlation
       (fst (handle_discord_message recorded_once message answers)))
  ∧ (∀ message answer,
       at_most_one_correlation
         (fst (handle_discord_message_delete recorded_once message answer)))
  ∧ (∀ upd w,
       at_most_one_correlation
         (fst (handle_telegram_message recorded_once upd w)))
  ∧ (∀ upd w,
       at_most_one_correlation
         (fst (handle_telegram_message_delete recorded_once upd w)))
  ∧ (∀ message answers,
       fst (handle_discord_message recorded_once message answers)
       ≠ recorded_once →
       ∃ n j,
         sent (snd (handle_discord_message recorded_once message answers))
         = requests recorded_once message
         ∧ length (requests recorded_once message) = S n
         ∧ answers n = Returns j
         ∧ ok j = true)
  ∧ (∀ upd w,
       deleted_message upd = None →
       posted w = None →
       fst (handle_telegram_message recorded_once upd w) = recorded_once).
Proof.
  apply (handlers_keep_one_correlation recorded_once).
  apply (one_correlation_record sample_sync (ann_says 1 "hi" []) 100).
  - apply one_correlation_init.
  - intros t n u. simpl. by rewrite lookup_empty.
  - intros d n u. simpl. by rewrite lookup_empty.
Defined.

(** ** The poll cursor *)

Lemma for_updates_offset updates : ∀ self worlds i,
  telegram_offset (fst (for_updates self updates worlds i))
  = match last updates with
    | Some upd => update_id upd + 1
    | None => telegram_offset self
    end.
Proof.
  induction updates as [|upd rest IH]; intros self worlds i; [done|].
  simpl for_updates.
  destruct (handle_telegram_message self upd (worlds i)) as [self1 t1].
  specialize (IH (set_offset self1 (update_id upd + 1)) worlds (S i)).
  destruct (for_updates _ rest worlds (S i)) as [self3 t3].
  simpl fst in *. rewrite IH, (last_cons upd rest).
  by destruct (last rest).
Qed.

(** The dispatch of an update never assigns the cursor. *)
Lemma telegram_message_no_assignment self upd w :
  acknowledged (snd (handle_telegram_message self upd w)) = [].
Proof. unfold acknowledged. telegram_branches; done. Qed.

Lemma acknowledged_app (t1 t2 : list event) :
  acknowledged (t1 ++ t2) = acknowledged t1 ++ acknowledged t2.
Proof. unfold acknowledged. apply omap_app. Qed.

(** The loop over a batch in two parts. *)
Lemma for_updates_app updates rest worlds : ∀ self i,
  for_updates self (updates ++ rest) worlds i
  = (fst (for_updates (fst (for_updates self updates worlds i)) rest worlds
            (i + length updates)%nat),
     snd (for_updates self updates worlds i)
     ++ snd (for_updates (fst (for_updates self updates worlds i)) rest worlds
               (i + length updates)%nat)).
Proof.
  induction updates as [|upd0 updates IH]; intros self i; simpl.
  - rewrite Nat.add_0_r. by destruct (for_updates self rest worlds i).
  - destruct (handle_telegram_message self upd0 (worlds i)) as [self1 t1].
    rewrite IH.
    destruct (for_updates (set_offset self1 (update_id upd0 + 1)) updates
                worlds (S i)) as [self3 t3].
    simpl. replace (i + S (length updates))%nat with (S (i + length updates))
      by lia.
    by rewrite <- app_assoc.
Qed.

Lemma for_updates_snoc updates upd worlds self i :
  for_updates self (updates ++ [upd]) worlds i
  = (set_offset
       (fst (handle_telegram_message (fst (for_updates self updates worlds i))
               upd (worlds (i + length updates)%nat)))
       (update_id upd + 1),
     snd (for_updates self updates worlds i)
     ++ snd (handle_telegram_message (fst (for_updates self updates worlds i))
               upd (worlds (i + length updates)%nat))
     ++ [SetOffset (update_id upd + 1)]).
Proof.
  rewrite for_updates_app. simpl.
  by destruct (handle_telegram_message _ upd _).
Qed.

(** The assignments of a batch: one per update, in order. *)
Lemma for_updates_acknowledged updates : ∀ self worlds i,
  acknowledged (snd (for_updates self updates worlds i))
  = map (λ upd, update_id upd + 1) updates.
Proof.
  induction updates as [|upd rest IH]; intros self worlds i; [done|].
  simpl. pose proof (telegram_message_no_assignment self upd (worlds i)) as Hno.
  destruct (handle_telegram_message self upd (worlds i)) as [self1 t1].
  specialize (IH (set_offset self1 (update_id upd + 1)) worlds (S i)).
  destruct (for_updates _ rest worlds (S i)) as [self3 t3]. simpl in *.
  rewrite acknowledged_app, Hno. simpl. unfold acknowledged in *. simpl.
  by rewrite IH.
Qed.

Lemma poll_once_offset self f worlds :
  telegram_offset (fst (poll_once self f worlds))
  = cursor_after (telegram_offset self) f.
Proof.
  unfold poll_once, cursor_after. destruct f as [|[] updates]; [done| |done].
  rewrite <- (for_updates_offset updates self worlds 0).
  by destruct (for_updates self updates worlds 0).
Qed.

Lemma telegram_polling_offset turns : ∀ self,
  telegram_offset (fst (telegram_polling self turns))
  = fold_left cursor_after (map fst turns) (telegram_offset self).
Proof.
  induction turns as [|[f worlds] rest IH]; intros self; [done|].
  simpl. rewrite <- (poll_once_offset self f worlds).
  destruct (poll_once self f worlds) as [self1 t1]. simpl.
  rewrite <- IH. by destruct (telegram_polling self1 rest).
Qed.

(** In an ascending batch the cursor ends past every id of the batch. *)
Lemma ascending_from_last updates : ∀ cursor,
  ascending_from cursor updates →
  cursor ≤ cursor_after cursor (FetchReturns true updates)
  ∧ ∀ upd, upd ∈ updates →
           update_id upd < cursor_after cursor (FetchReturns true updates).
Proof.
  induction updates as [|upd0 rest IH]; intros cursor Hasc;
    unfold cursor_after in *; simpl in Hasc.
  - split; [simpl; lia|]. intros upd Hin. by apply elem_of_nil in Hin.
  - destruct Hasc as [Hle Hasc]. destruct (IH _ Hasc) as [Hcur Hall].
    rewrite (last_cons upd0 rest).
    destruct (last rest) as [updn|] eqn:Hlast.
    + split; [lia|]. intros upd Hin.
      apply elem_of_cons in Hin as [->|Hin]; [lia|]. by apply Hall.
    + apply last_None in Hlast. subst rest. split; [lia|]. intros upd Hin.
      apply list_elem_of_singleton in Hin. subst. lia.
Qed.

Lemma ascending_turns_le fetches : ∀ cursor,
  ascending_turns cursor fetches →
  cursor ≤ fold_left cursor_after fetches cursor.
Proof.
  induction fetches as [|f rest IH]; intros cursor Hasc; simpl in *; [lia|].
  destruct Hasc as [Hf Hrest]. specialize (IH _ Hrest).
  assert (cursor ≤ cursor_after cursor f); [|lia].
  destruct f as [|[] updates]; simpl; try lia.
  by apply (ascending_from_last updates).
Qed.

Lemma ascending_highest rest : ∀ cursor upd,
  ascending_from cursor (upd :: rest) →
  Some (fold_left Z.max (map update_id rest) (update_id upd))
  = update_id <$> last (upd :: rest).
Proof.
  induction rest as [|upd1 rest IH]; intros cursor upd Hasc; [done|].
  destruct Hasc as [_ Hasc]. rewrite last_cons_cons. simpl fold_left.
  destruct Hasc as [Hle Hasc'] eqn:Heq. clear Heq.
  replace (Z.max (update_id upd) (update_id upd1)) with (update_id upd1) by lia.
  by apply (IH (update_id upd + 1)).
Qed.

Lemma ascending_cursor_highest cursor updates :
  ascending_from cursor updates →
  cursor_after cursor (FetchReturns true updates)
  = match highest_id updates with
    | Some h => h + 1
    | None => cursor
    end.
Proof.
  intros Hasc. destruct updates as [|upd rest]; [done|].
  pose proof (ascending_highest rest cursor upd Hasc) as Hmax.
  unfold cursor_after, highest_id.
  destruct (last (upd :: rest)) as [updn|]; [|done].
  injection Hmax as ->. done.
Qed.

(** C4 fails as stated: the loop takes the cursor from the last update of
    the batch, whatever its id.  A turn that fetches update 9 leaves the
    cursor at 10, and a later turn that fetches update 3 moves it back to
    4; a batch with the ids 5 and 3 leaves it at 4, where one past the
    highest id is 6. *)
Lemma poll_cursor_counterexample :
  telegram_offset
    (fst (telegram_polling sample_sync
            [(FetchReturns true [bare_update 9], quiet)])) = 10
  ∧ telegram_offset
      (fst (telegram_polling sample_sync
              [(FetchReturns true [bare_update 9], quiet);
               (FetchReturns true [bare_update 3], quiet)])) = 4
  ∧ telegram_offset
      (fst (poll_once sample_sync
              (FetchReturns true [bare_update 5; bare_update 3]) quiet)) = 4
  ∧ highest_id [bare_update 5; bare_update 3] = Some 5.
Proof. repeat split; reflexivity. Qed.

(** C4, amended: the cursor a turn leaves is one past the id of the last
    update of the batch, whatever happens inside the dispatch of the
    updates, and the cursor it had when the fetch fails or the batch is
    empty.  The cursor is assigned once per update, to one past its id,
    and in the trace of the loop that assignment comes after every effect
    of the dispatch of that update and before any effect of the next; the
    dispatch itself never assigns it.  When the ids of each batch ascend
    from the cursor, the cursor after a turn is one past the highest id of
    the batch, and it never decreases from turn to turn. *)
Theorem poll_cursor_follows_the_batch self :
  (∀ f worlds,
     telegram_offset (fst (poll_once self f worlds))
     = cursor_after (telegram_offset self) f)
  ∧ (∀ updates upd rest worlds,
       (∃ after,
          snd (for_updates self (updates ++ upd :: rest) worlds 0)
          = snd (for_updates self updates worlds 0)
            ++ snd (handle_telegram_message
                      (fst (for_updates self updates worlds 0)) upd
                      (worlds (length updates)))
            ++ SetOffset (update_id upd + 1) :: after
          ∧ acknowledged after = map (λ upd, update_id upd + 1) rest)
       ∧ acknowledged (snd (for_updates self updates worlds 0))
         = map (λ upd, update_id upd + 1) updates
       ∧ acknowledged
           (snd (handle_telegram_message
                   (fst (for_updates self updates worlds 0)) upd
                   (worlds (length updates))))
         = []
       ∧ telegram_offset
           (fst (handle_telegram_message
                   (fst (for_updates self updates worlds 0)) upd
                   (worlds (length updates))))
         = telegram_offset (fst (for_updates self updates worlds 0))
       ∧ fst (for_updates self (updates ++ [upd]) worlds 0)
         = set_offset
             (fst (handle_telegram_message
                     (fst (for_updates self updates worlds 0)) upd
                     (worlds (length updates))))
             (update_id upd + 1))
  ∧ (∀ updates worlds,
       ascending_from (telegram_offset self) updates →
       telegram_offset (fst (poll_once self (FetchReturns true updates) worlds))
       = match highest_id updates with
         | Some h => h + 1
         | None => telegram_offset self
         end
       ∧ telegram_offset self
         ≤ telegram_offset
             (fst (poll_once self (FetchReturns true updates) worlds)))
  ∧ (∀ turns,
       ascending_turns (telegram_offset self) (map fst turns) →
       telegram_offset self
       ≤ telegram_offset (fst (telegram_polling self turns))).
Proof.
  refine (conj _ (conj _ (conj _ _))).
  - apply poll_once_offset.
  - intros updates upd rest worlds.
    refine (conj _ (conj _ (conj _ (conj _ _)))).
    + rewrite (for_updates_app updates (upd :: rest)). simpl.
      destruct (handle_telegram_message
                  (fst (for_updates self updates worlds 0)) upd
                  (worlds (length updates))) as [self1 t1].
      pose proof (for_updates_acknowledged rest
                    (set_offset self1 (update_id upd + 1)) worlds
                    (S (length updates))) as Hack.
      destruct (for_updates (set_offset self1 (update_id upd + 1)) rest
                  worlds (S (length updates))) as [self3 t3].
      simpl in *. by exists t3.
    + apply for_updates_acknowledged.
    + apply telegram_message_no_assignment.
    + apply telegram_message_offset.
    + by rewrite for_updates_snoc.
  - intros updates worlds Hasc. rewrite poll_once_offset. split.
    + by apply ascending_cursor_highest.
    + by apply (ascending_from_last updates).
  - intros turns Hasc. rewrite telegram_polling_offset.
    by apply ascending_turns_le.
Qed.

Example dispatch_fails_inside :
  handle_telegram_message sample_sync (document_update 3) (stormy 0%nat)
  = (sample_sync,
     [GetAvatar (Some 42);
      Download "file-1";
      WebhookPost
        {| wh_username := "bob";
           wh_avatar_url := "https://api.dicebear.com/7.x/initials/svg?seed=42";
           wh_content := "" |}
        (Some "/tmp/tmpabc.pdf");
      RemoveFile "/tmp/tmpabc.pdf";
      Log ERROR "Error processing Telegram message"]).
Proof. reflexivity. Qed.

(** The cursor moves after the dispatch, also when the dispatch fails. *)
Example cursor_moves_after_the_dispatch :
  poll_once sample_sync
    (FetchReturns true [document_update 3; bare_update 7]) stormy
  = (set_offset sample_sync 8,
     [Request (getUpdates 0);
      GetAvatar (Some 42);
      Download "file-1";
      WebhookPost
        {| wh_username := "bob";
           wh_avatar_url := "https://api.dicebear.com/7.x/initials/svg?seed=42";
           wh_content := "" |}
        (Some "/tmp/tmpabc.pdf");
      RemoveFile "/tmp/tmpabc.pdf";
      Log ERROR "Error processing Telegram message";
      SetOffset 4;
      SetOffset 8;
      Sleep 1]).
Proof. reflexivity. Qed.

Lemma poll_cursor_follows_the_batch_witness :
  telegram_offset
    (fst (poll_once sample_sync
            (FetchReturns true [document_update 3; document_update 7]) stormy))
  = 8
  ∧ 0 ≤ telegram_offset
          (fst (poll_once sample_sync
                  (FetchReturns true [document_update 3; document_update 7])
                  stormy)).
Proof.
  apply (proj1 (proj2 (proj2 (poll_cursor_follows_the_batch sample_sync)))
           [document_update 3; document_update 7] stormy).
  simpl. lia.
Defined.

(** ** Scenarios *)

(** A text-only message from Ann: one text line goes out, and the
    correlation between the Discord id and the returned Telegram id is
    recorded in both directions. *)
Example ann_says_hi :
  snd (handle_discord_message sample_sync (ann_says 1 "hi" [])
         (always (succeeds 100)))
  = [Request (sendMessage (-7) (balloon +:+ " <b>Ann</b>: hi") None)]
  ∧ discord_to_telegram recorded_once !! "1" = Some (100, "Ann", 9)
  ∧ telegram_to_discord recorded_once !! 100 = Some ("1", "Ann", 9).
Proof. repeat split; reflexivity. Qed.

(** Text and a photo, both sent with success: the photo's id is the one
    recorded, the text line's id is not. *)
Example text_then_photo :
  discord_to_telegram
    (fst (handle_discord_message sample_sync (ann_says 1 "hi" [png])
            (script [succeeds 100; succeeds 101]))) !! "1"
  = Some (101, "Ann", 9)
  ∧ telegram_to_discord
      (fst (handle_discord_message sample_sync (ann_says 1 "hi" [png])
              (script [succeeds 100; succeeds 101]))) !! 100
    = None.
Proof. split; reflexivity. Qed.

(** The text line is sent with success, the photo is not: nothing is
    recorded. *)
Example text_then_failed_photo :
  handle_discord_message sample_sync (ann_says 1 "hi" [png])
    (script [succeeds 100; fails])
  = (sample_sync,
     [Request (sendMessage (-7) (balloon +:+ " <b>Ann</b>: hi") None);
      Request (sendPhoto (-7) "https://cdn.example/a.png" "<b>Ann</b>: hi"
                 None)]).
Proof. reflexivity. Qed.

(** A reply to a recorded message is threaded to its Telegram id. *)
Example reply_is_threaded :
  snd (handle_discord_message recorded_once
         (replies_to (ann_says 2 "yes" []) 1) (always (succeeds 102)))
  = [Request (sendMessage (-7) (balloon +:+ " <b>Ann</b>: yes") (Some 100))].
Proof. reflexivity. Qed.

(** A deleted Discord message without correlation: no call, no log. *)
Example delete_without_correlation :
  handle_discord_message_delete sample_sync (ann_says 5 "gone" []) (succeeds 0)
  = (sample_sync, []).
Proof. reflexivity. Qed.

(** A Telegram delete update for a recorded id, from the poll loop: the
    webhook delete is attempted and the pair is removed. *)
Example telegram_delete_update :
  discord_to_telegram
    (fst (handle_telegram_message recorded_once
            {| update_id := 12;
               deleted_message := Some (Some 100);
               message := None |} (stormy 0%nat))) !! "1" = None
  ∧ snd (handle_telegram_message recorded_once
           {| update_id := 12;
              deleted_message := Some (Some 100);
              message := None |} (stormy 0%nat))
    = [WebhookDelete "11" "tok" "1";
       Log ERROR "Error deleting webhook message";
       Log INFO "Message deleted in Discord"].
Proof. split; reflexivity. Qed.

(** * Further properties *)

(** ** Threaded replies *)

Lemma reply_to_recorded self message ref_id t n u :
  reference message = Some (Some ref_id) →
  ref_id ≠ 0 →
  discord_to_telegram self !! str ref_id = Some (t, n, u) →
  reply_to self message = Some t.
Proof.
  intros Href Hnz Hl. unfold reply_to. rewrite Href, Hl.
  assert (truthy ref_id = true) as ->; [|done].
  unfold truthy. by apply negb_true_iff, Z.eqb_neq.
Qed.

Lemma truthy_opt_nonzero t : t ≠ 0 → truthy_opt (Some t) = Some t.
Proof.
  intros Hnz. unfold truthy_opt, truthy.
  by destruct (Z.eqb_spec t 0).
Qed.

(** Every send of a run carries the hint of the resolved reply target. *)
Lemma sent_hints self message answers r :
  r ∈ sent (snd (handle_discord_message self message answers)) →
  reply_hint r = truthy_opt (reply_to self message).
Proof.
  intros Hr. destruct (sent_handler self message answers) as [n Hn].
  rewrite Hn in Hr. apply (subseteq_take n) in Hr.
  by apply requests_hint.
Qed.

(** X1: a message that replies to a Discord message recorded with the
    Telegram id [t] (not 0) is sent threaded: every send of the run, the
    text line and each attachment, carries [reply_to_message_id = t]. *)
Theorem reply_to_recorded_is_threaded self message answers ref_id t n u :
  reference message = Some (Some ref_id) →
  ref_id ≠ 0 →
  discord_to_telegram self !! str ref_id = Some (t, n, u) →
  t ≠ 0 →
  ∀ r, r ∈ sent (snd (handle_discord_message self message answers)) →
       reply_hint r = Some t.
Proof.
  intros Href Hnz Hl Ht r Hr.
  rewrite (sent_hints self message answers r Hr).
  rewrite (reply_to_recorded self message ref_id t n u) by done.
  by apply truthy_opt_nonzero.
Qed.

Lemma reply_to_recorded_is_threaded_witness :
  Forall (λ r, reply_hint r = Some 100)
    (sent (snd (handle_discord_message recorded_once
                  (replies_to (ann_says 2 "yes" [png]) 1)
                  (always (succeeds 102))))).
Proof.
  apply Forall_forall.
  apply (reply_to_recorded_is_threaded recorded_once
           (replies_to (ann_says 2 "yes" [png]) 1) (always (succeeds 102))
           1 100 "Ann" 9); [reflexivity | lia | reflexivity | lia].
Defined.

(** X2: record, then reply.  When the relay of a message ends with a
    successful send of Telegram id [t] (not 0), a later message that
    replies to it is sent threaded to [t], whatever Telegram answers to
    the second run. *)
Theorem reply_after_relay_is_threaded self first answers n j t second answers' :
  length (requests self first) = S n →
  (∀ k, (k < n)%nat → returns (answers k)) →
  answers n = Returns j →
  ok j = true →
  result_message_id j = Some t →
  t ≠ 0 →
  id first ≠ 0 →
  reference second = Some (Some (id first)) →
  ∀ r, r ∈ sent (snd (handle_discord_message
                        (fst (handle_discord_message self first answers))
                        second answers')) →
       reply_hint r = Some t.
Proof.
  intros Hlen Hret Hn Hok Hid Ht Hfirst Href r Hr.
  rewrite (last_send_recorded self first answers n j t) in Hr by done.
  simpl in Hr. rewrite (sent_hints _ _ _ _ Hr).
  rewrite (reply_to_recorded _ second (id first) t
             (author_display_name first) (author_id first)); try done.
  - by apply truthy_opt_nonzero.
  - unfold record_direct. simpl. by rewrite lookup_insert_eq.
Qed.

Lemma reply_after_relay_is_threaded_witness :
  Forall (λ r, reply_hint r = Some 101)
    (sent (snd (handle_discord_message
                  (fst (handle_discord_message sample_sync
                          (ann_says 1 "hi" [png])
                          (script [succeeds 100; succeeds 101])))
                  (replies_to (ann_says 2 "yes" []) 1)
                  (always fails)))).
Proof.
  apply Forall_forall.
  apply (reply_after_relay_is_threaded sample_sync (ann_says 1 "hi" [png])
           (script [succeeds 100; succeeds 101]) 1
           {| ok := true; result_message_id := Some 101 |} 101
           (replies_to (ann_says 2 "yes" []) 1) (always fails));
    [reflexivity | | reflexivity | reflexivity | reflexivity | lia
    | simpl; lia | reflexivity].
  intros [|k] Hk; [by eexists | lia].
Defined.

(** ** Relay, then delete *)

Lemma set_direct_same self :
  set_direct self (discord_to_telegram self) (telegram_to_discord self) = self.
Proof. by destruct self. Qed.

Lemma set_relay_same self :
  set_relay self (webhook_to_telegram self) (telegram_to_webhook self) = self.
Proof. by destruct self. Qed.

(** X3: insert, then delete.  A message whose id and whose Telegram id
    are not yet in the tables is relayed with success and then deleted on
    Discord; when Telegram confirms the outbound delete, the delete asked
    for is the one of the recorded Telegram id and the object is exactly
    as it was before the relay. *)
Theorem relay_then_delete_restores self message answers n j t j' :
  discord_to_telegram self !! str (id message) = None →
  telegram_to_discord self !! t = None →
  length (requests self message) = S n →
  (∀ k, (k < n)%nat → returns (answers k)) →
  answers n = Returns j →
  ok j = true →
  result_message_id j = Some t →
  ok j' = true →
  handle_discord_message_delete
    (fst (handle_discord_message self message answers)) message (Returns j')
  = (self,
     [Request (deleteMessage (telegram_chat_id self) t);
      Log INFO "Message deleted in Telegram"]).
Proof.
  intros Hd Ht Hlen Hret Hn Hok Hid Hok'.
  rewrite (last_send_recorded self message answers n j t) by done. simpl.
  rewrite (discord_delete_ok _ message j' t (author_display_name message)
             (author_id message));
    [|unfold record_direct; simpl; by rewrite lookup_insert_eq|done].
  unfold record_direct. simpl. f_equal.
  rewrite !delete_insert_eq, !delete_id by done.
  unfold set_direct. simpl. by destruct self.
Qed.

Lemma relay_then_delete_restores_witness :
  handle_discord_message_delete
    (fst (handle_discord_message sample_sync (ann_says 1 "hi" [png])
            (script [succeeds 100; succeeds 101])))
    (ann_says 1 "hi" [png]) (succeeds 0)
  = (sample_sync,
     [Request (deleteMessage (-7) 101);
      Log INFO "Message deleted in Telegram"]).
Proof.
  apply (relay_then_delete_restores sample_sync (ann_says 1 "hi" [png])
           (script [succeeds 100; succeeds 101]) 1
           {| ok := true; result_message_id := Some 101 |} 101
           {| ok := true; result_message_id := Some 0 |});
    [reflexivity | reflexivity | reflexivity | | reflexivity | reflexivity
    | reflexivity | reflexivity].
  intros [|k] Hk; [by eexists | lia].
Defined.

(** ** What the Discord handlers leave alone *)

(** X4: the two Discord handlers change nothing but the two
    Discord-to-Telegram tables: the configuration, the webhook tables and
    the poll cursor are the same after any run. *)
Theorem discord_handlers_touch_direct_tables_only self message :
  (∀ answers,
     same_but_direct self (fst (handle_discord_message self message answers)))
  ∧ (∀ answer,
       same_but_direct self
         (fst (handle_discord_message_delete self message answer))).
Proof.
  split.
  - intros answers.
    destruct (handler_state self message answers)
      as [->|(n & j & t & _ & _ & _ & _ & _ & ->)]; by repeat split.
  - intros answer.
    destruct (discord_to_telegram self !! str (id message))
      as [[[t n] u]|] eqn:Hd;
      [|rewrite discord_delete_miss by done; by repeat split].
    destruct answer as [j|];
      [|rewrite (discord_delete_raises self message t n u) by done;
        by repeat split].
    destruct (ok j) eqn:Hok;
      [|rewrite (discord_delete_not_ok self message j t n u) by done;
        by repeat split].
    rewrite (discord_delete_ok self message j t n u) by done.
    by repeat split.
Qed.

(** ** The sends of a run, whatever Telegram answers *)

Lemma calls_sent answers reqs : ∀ i telegram_msg,
  sent (fst (calls answers i reqs telegram_msg))
  = take (calls_made answers i (length reqs)) reqs.
Proof.
  induction reqs as [|r reqs IH]; intros i telegram_msg; simpl; [done|].
  unfold mbind, io_bind, call. destruct (answers i) as [j|].
  - specialize (IH (S i) (Some j)).
    destruct (calls answers (S i) reqs (Some j)) as [t res]. simpl in *.
    unfold sent in *. simpl. by rewrite IH.
  - simpl. by rewrite take_0.
Qed.

(** X5: the sends of a run are the first planned calls of the message, in
    order and once each, up to and including the first call that raises:
    the handler never retries a send, never sends out of order and never
    sends anything else, whatever Telegram answers. *)
Theorem sends_are_a_prefix self message answers :
  sent (snd (handle_discord_message self message answers))
  = take (calls_made answers 0 (length (requests self message)))
      (requests self message).
Proof.
  unfold handle_discord_message. rewrite body_calls.
  pose proof (calls_sent answers (requests self message) 0 None) as Hsent.
  unfold mbind, io_bind.
  destruct (calls answers 0 (requests self message) None) as [t [tm|e]];
    simpl in Hsent.
  - pose proof (map_messages_trace self message tm) as Hm.
    destruct (map_messages self message tm) as [t' [s'|e]]; simpl in *;
      subst t'; rewrite ?app_nil_r; [done|].
    by rewrite sent_app, app_nil_r.
  - simpl. by rewrite sent_app, app_nil_r.
Qed.

(** X6: a message without text and with attachments: no text line is
    sent, and every attachment goes out with an empty caption. *)
Theorem attachments_without_text self message answers :
  content message = "" →
  (∀ k, (k < length (attachments message))%nat → returns (answers k)) →
  sent (snd (handle_discord_message self message answers))
  = map (λ a,
      primitive_request (category (content_type a)) (telegram_chat_id self)
        (url a) "" (truthy_opt (reply_to self message)))
    (attachments message).
Proof.
  intros Hc Hret.
  assert (requests self message
          = map (send_attachment self message) (attachments message)) as Hreq.
  { unfold requests. by rewrite Hc. }
  rewrite sent_all_return.
  - rewrite Hreq. apply map_ext. intros a. rewrite send_attachment_category.
    unfold caption. by rewrite Hc.
  - intros k Hk. apply Hret. by rewrite Hreq, length_map in Hk.
Qed.

Lemma attachments_without_text_witness :
  sent (snd (handle_discord_message sample_sync (ann_says 1 "" [png; mp4])
               (script [fails; succeeds 101])))
  = [sendPhoto (-7) "https://cdn.example/a.png" "" None;
     sendVideo (-7) "https://cdn.example/b.mp4" "" None].
Proof.
  apply (attachments_without_text sample_sync (ann_says 1 "" [png; mp4])
           (script [fails; succeeds 101])); [reflexivity|].
  intros [|[|k]] Hk; [by eexists | by eexists | simpl in Hk; lia].
Defined.

(** ** The Telegram side *)

Lemma telegram_message_no_request self upd w :
  sent (snd (handle_telegram_message self upd w)) = [].
Proof. telegram_branches; done. Qed.


(** X8: one update causes at most one download and at most one webhook
    post, whatever the message carries and whatever the outside world
    does. *)
Theorem one_post_per_update self upd w :
  (length (posts (snd (handle_telegram_message self upd w))) ≤ 1)%nat
  ∧ (length (downloads (snd (handle_telegram_message self upd w))) ≤ 1)%nat.
Proof.
  unfold posts, downloads. telegram_branches; simpl; try lia; congruence.
Qed.

(** X9: [os.remove] is called on the temporary file of a relayed media
    message right after the webhook post the file is attached to, whether
    the post succeeded or not: in the trace of a dispatch, log lines
    apart, every post of an existing file is followed at once by the call
    of [os.remove] on that file.  The call itself may fail: then the
    dispatch ends with its error line and records nothing, even when the
    post succeeded. *)
Theorem temporary_files_are_released self upd w :
  files_released (path_exists w)
    (without_logs (snd (handle_telegram_message self upd w)))
  ∧ (deleted_message upd = None →
     remove_raises w = true →
     removals (snd (handle_telegram_message self upd w)) ≠ [] →
     fst (handle_telegram_message self upd w) = self
     ∧ last (snd (handle_telegram_message self upd w))
       = Some (Log ERROR "Error processing Telegram message")).
Proof.
  split.
  - telegram_branches; simpl; repeat split; try done;
      intros Hthere; try done; try congruence;
      apply andb_true_iff in Hthere as [? ?]; congruence.
  - intros Hdel Hraises. unfold removals.
    telegram_branches; simpl; try done; congruence.
Qed.

Lemma temporary_files_are_released_witness :
  fst (handle_telegram_message sample_sync (document_update 3) (stormy 0%nat))
  = sample_sync
  ∧ last (snd (handle_telegram_message sample_sync (document_update 3)
                 (stormy 0%nat)))
    = Some (Log ERROR "Error processing Telegram message").
Proof.
  apply (proj2 (temporary_files_are_released sample_sync (document_update 3)
                  (stormy 0%nat))); [reflexivity | reflexivity | done].
Defined.

Example failed_post_is_logged_before_the_removal :
  handle_telegram_message sample_sync (document_update 3) refusing
  = (sample_sync,
     [GetAvatar (Some 42);
      Download "file-1";
      WebhookPost
        {| wh_username := "bob";
           wh_avatar_url := "https://api.dicebear.com/7.x/initials/svg?seed=42";
           wh_content := "" |}
        (Some "/tmp/tmpabc.pdf");
      Log ERROR "Error sending webhook";
      RemoveFile "/tmp/tmpabc.pdf"]).
Proof. reflexivity. Qed.

(** ** The poll loop as a whole *)

Lemma polled_no_request (t : list event) : sent t = [] → polled t = [].
Proof.
  induction t as [|e t IH]; [done|]. unfold sent, polled in *.
  destruct e; simpl; try done.
Qed.

Lemma polled_app (t1 t2 : list event) : polled (t1 ++ t2) = polled t1 ++ polled t2.
Proof. unfold polled. apply omap_app. Qed.

Lemma for_updates_polled updates : ∀ self worlds i,
  polled (snd (for_updates self updates worlds i)) = [].
Proof.
  induction updates as [|upd rest IH]; intros self worlds i; [done|].
  simpl. pose proof (telegram_message_no_request self upd (worlds i)) as Hno.
  destruct (handle_telegram_message self upd (worlds i)) as [self1 t1].
  specialize (IH (set_offset self1 (update_id upd + 1)) worlds (S i)).
  destruct (for_updates _ rest worlds (S i)) as [self3 t3]. simpl in *.
  rewrite polled_app, (polled_no_request t1 Hno). simpl.
  unfold polled in *. simpl. by rewrite IH.
Qed.

Lemma poll_once_polled self f worlds :
  polled (snd (poll_once self f worlds)) = [telegram_offset self].
Proof.
  unfold poll_once. destruct f as [|[] updates]; [done| |done].
  pose proof (for_updates_polled updates self worlds 0) as Hno.
  destruct (for_updates self updates worlds 0) as [self' t]. simpl in *.
  unfold polled in *. simpl. by rewrite omap_app, Hno.
Qed.

(** X10: every turn of the poll loop asks Telegram once, and the offset
    it asks with is the cursor the turn before left: the first turn asks
    with the cursor of the object, each later one with one past the last
    update id of the last non-empty batch fetched with success. *)
Theorem polling_asks_with_the_cursor turns : ∀ self,
  polled (snd (telegram_polling self turns))
  = cursors (telegram_offset self) (map fst turns).
Proof.
  induction turns as [|[f worlds] rest IH]; intros self; [done|].
  simpl. pose proof (poll_once_polled self f worlds) as Hone.
  pose proof (poll_once_offset self f worlds) as Hoff.
  destruct (poll_once self f worlds) as [self1 t1].
  specialize (IH self1).
  destruct (telegram_polling self1 rest) as [self2 t2]. simpl in *.
  by rewrite polled_app, Hone, IH, Hoff.
Qed.

Lemma one_correlation_telegram_message self upd w :
  at_most_one_correlation self →
  at_most_one_correlation (fst (handle_telegram_message self upd w)).
Proof.
  intros Hinv. destruct (deleted_message upd) as [o|] eqn:Hdel.
  - rewrite (telegram_message_deleted self upd w o Hdel).
    by apply one_correlation_telegram_delete.
  - destruct (telegram_message_state self upd w Hdel)
      as [->|(message_id & ts & _ & ->)]; [done|].
    by apply one_correlation_relay.
Qed.

Lemma one_correlation_for_updates updates : ∀ self worlds i,
  at_most_one_correlation self →
  at_most_one_correlation (fst (for_updates self updates worlds i)).
Proof.
  induction updates as [|upd rest IH]; intros self worlds i Hinv; [done|].
  simpl.
  pose proof (one_correlation_telegram_message self upd (worlds i) Hinv) as H1.
  destruct (handle_telegram_message self upd (worlds i)) as [self1 t1].
  specialize (IH (set_offset self1 (update_id upd + 1)) worlds (S i) H1).
  by destruct (for_updates _ rest worlds (S i)).
Qed.

(** X11: the poll loop keeps the pairing of the two Discord-to-Telegram
    tables: when every entry has its mirror entry and no other entry
    mentions its ids before a run of the loop, the same holds after any
    number of turns, whatever is fetched and whatever happens in the
    dispatches. *)
Theorem polling_keeps_one_correlation turns : ∀ self,
  at_most_one_correlation self →
  at_most_one_correlation (fst (telegram_polling self turns)).
Proof.
  induction turns as [|[f worlds] rest IH]; intros self Hinv; [done|].
  simpl.
  assert (at_most_one_correlation (fst (poll_once self f worlds))) as H1.
  { unfold poll_once. destruct f as [|[] updates]; [done| |done].
    pose proof (one_correlation_for_updates updates self worlds 0 Hinv).
    by destruct (for_updates self updates worlds 0). }
  destruct (poll_once self f worlds) as [self1 t1].
  specialize (IH self1 H1). by destruct (telegram_polling self1 rest).
Qed.

Lemma polling_keeps_one_correlation_witness :
  at_most_one_correlation
    (fst (telegram_polling recorded_once
            [(FetchReturns true
                [document_update 3;
                 {| update_id := 4;
                    deleted_message := Some (Some 100);
                    message := None |}], stormy);
             (FetchRaises, quiet)])).
Proof.
  apply polling_keeps_one_correlation.
  apply (one_correlation_record sample_sync (ann_says 1 "hi" []) 100).
  - apply one_correlation_init.
  - intros t n u. simpl. by rewrite lookup_empty.
  - intros d n u. simpl. by rewrite lookup_empty.
Defined.

(** ** The largest photo *)

(** Of the sizes of a photo, [max] picks one of greatest width, an absent
    width counting as 0: the size chosen is one of the list, no size is
    wider, and it is the first size when none is wider than the first. *)
Lemma max_by_width_greatest l : ∀ best,
  max_by_width best l ∈ best :: l
  ∧ (∀ p, p ∈ best :: l → width_of p ≤ width_of (max_by_width best l))
  ∧ ((∀ p, p ∈ l → width_of p ≤ width_of best) → max_by_width best l = best).
Proof.
  induction l as [|q l IH]; intros best; simpl.
  - split; [by left|]. split; [|done].
    intros p Hp. apply list_elem_of_singleton in Hp. by subst.
  - destruct (Z.ltb_spec (width_of best) (width_of q)) as [Hlt|Hge].
    + destruct (IH q) as (Hin & Hmax & _).
      assert (width_of q ≤ width_of (max_by_width q l)) as Hq
        by (apply Hmax; by left).
      split; [by right|]. split.
      * intros p Hp. apply elem_of_cons in Hp as [->|Hp]; [lia|by apply Hmax].
      * intros Hall. assert (width_of q ≤ width_of best); [|lia].
        apply Hall. by left.
    + destruct (IH best) as (Hin & Hmax & Hfirst).
      assert (width_of best ≤ width_of (max_by_width best l)) as Hb
        by (apply Hmax; by left).
      split; [|split].
      * apply elem_of_cons in Hin as [->|Hin]; [by left|by do 2 right].
      * intros p Hp. apply elem_of_cons in Hp as [->|Hp]; [done|].
        apply elem_of_cons in Hp as [->|Hp]; [lia|]. apply Hmax. by right.
      * intros Hall. apply Hfirst. intros p Hp. apply Hall. by right.
Qed.

(** X12: for a photo message of the configured chat the one file that is
    downloaded is a size of the photo of greatest width (an absent width
    counting as 0): no size of the message is wider. *)
Theorem widest_photo_is_downloaded self upd w m p l :
  deleted_message upd = None →
  message upd = Some m →
  msg_chat_id m = Some (telegram_chat_id self) →
  nonempty (default "" (msg_text m)) = false →
  msg_photo m = p :: l →
  ∃ size,
    downloads (snd (handle_telegram_message self upd w)) = [ps_file_id size]
    ∧ size ∈ msg_photo m
    ∧ ∀ q, q ∈ msg_photo m → width_of q ≤ width_of size.
Proof.
  intros Hdel Hm Hchat Htext Hphoto. exists (max_by_width p l).
  destruct (max_by_width_greatest l p) as (Hin & Hmax & _).
  rewrite Hphoto. split; [|done].
  unfold downloads, handle_telegram_message, handle_telegram_message_body.
  rewrite Hdel, Hm, Hchat, bool_decide_eq_true_2 by done.
  unfold relay_content. rewrite Htext, Hphoto.
  unfold relay_file, clean_up, get_telegram_user_avatar,
    download_telegram_file, send_webhook_message, mbind, io_bind, mret,
    io_ret, emit.
  repeat (case_match; simpl in *; simplify_eq); done.
Qed.

Lemma widest_photo_is_downloaded_witness :
  ∃ size,
    downloads (snd (handle_telegram_message sample_sync photo_update
                      (stormy 0%nat)))
    = [ps_file_id size]
    ∧ size ∈ msg_photo photo_message
    ∧ ∀ q, q ∈ msg_photo photo_message → width_of q ≤ width_of size.
Proof.
  apply (widest_photo_is_downloaded sample_sync photo_update (stormy 0%nat)
           photo_message
           {| ps_file_id := "small"; ps_width := Some 90 |}
           [ {| ps_file_id := "large"; ps_width := Some 1280 |};
             {| ps_file_id := "medium"; ps_width := None |} ]);
    reflexivity.
Defined.

Example large_photo_is_downloaded :
  downloads (snd (handle_telegram_message sample_sync photo_update
                    (stormy 0%nat)))
  = ["large"].
Proof. reflexivity. Qed.

(** ** The webhook address *)

Lemma split_not_nil sep s : split sep s ≠ [].
Proof.
  destruct s as [|c s]; simpl; [done|].
  destruct (Ascii.eqb c sep); [done|]. by destruct (split sep s).
Qed.

(** Splitting at a separator splits the two sides. *)
Lemma split_app sep a : ∀ b,
  split sep (a +:+ String sep b) = split sep a ++ split sep b.
Proof.
  induction a as [|c a IH]; intros b; simpl.
  - by rewrite Ascii.eqb_refl.
  - destruct (Ascii.eqb c sep); [by rewrite IH|].
    rewrite IH. pose proof (split_not_nil sep a).
    by destruct (split sep a).
Qed.

Lemma split_without sep s : contains sep s = false → split sep s = [s].
Proof.
  induction s as [|c s IH]; simpl; [done|].
  destruct (Ascii.eqb c sep); [done|]. intros Hs. by rewrite IH.
Qed.

Lemma webhook_info_address_parts base webhook_id webhook_token :
  contains "/" webhook_id = false →
  contains "/" webhook_token = false →
  extract_webhook_info
    (base +:+ "/" +:+ webhook_id +:+ "/" +:+ webhook_token)
  = (Some webhook_id, Some webhook_token).
Proof.
  intros Hid Htok. unfold extract_webhook_info.
  change (base +:+ "/" +:+ webhook_id +:+ "/" +:+ webhook_token)
    with (base +:+ String "/" (webhook_id +:+ String "/" webhook_token)).
  rewrite !split_app, (split_without _ webhook_id Hid),
    (split_without _ webhook_token Htok).
  rewrite !rev_app_distr. done.
Qed.

(** X13: the id and the token of the webhook are the last two parts of
    its address: an address without a slash has neither, and from an
    address that ends in [/id/token], where neither part holds a slash,
    they are [id] and [token], whatever comes before. *)
Theorem webhook_info_of_address :
  (∀ address,
     contains "/" address = false →
     extract_webhook_info address = (None, None))
  ∧ (∀ base webhook_id webhook_token,
       contains "/" webhook_id = false →
       contains "/" webhook_token = false →
       extract_webhook_info
         (base +:+ "/" +:+ webhook_id +:+ "/" +:+ webhook_token)
       = (Some webhook_id, Some webhook_token)).
Proof.
  split.
  - intros address Hno. unfold extract_webhook_info.
    by rewrite (split_without _ _ Hno).
  - apply webhook_info_address_parts.
Qed.

Lemma webhook_info_of_address_witness :
  extract_webhook_info "no-address" = (None, None)
  ∧ extract_webhook_info
      ("https://discord.com/api/webhooks" +:+ "/" +:+ "11" +:+ "/" +:+ "tok")
    = (Some "11", Some "tok").
Proof.
  split.
  - by apply (proj1 webhook_info_of_address).
  - by apply (proj2 webhook_info_of_address).
Defined.

(** X14: without an id and a token there is no request: when the address
    has no slash, or ends in a slash (an empty token), the delete of a
    webhook message sends nothing, logs nothing and returns. *)
Theorem webhook_delete_needs_id_and_token self w message_identifier :
  (contains "/" (webhook_url self) = false →
   delete_webhook_message self w message_identifier = ([], Done tt))
  ∧ (∀ base webhook_id,
       webhook_url self = base +:+ "/" +:+ webhook_id +:+ "/" →
       contains "/" webhook_id = false →
       delete_webhook_message self w message_identifier = ([], Done tt)).
Proof.
  split.
  - intros Hno. unfold delete_webhook_message, extract_webhook_info.
    by rewrite (split_without _ _ Hno).
  - intros base webhook_id Hurl Hid. unfold delete_webhook_message.
    rewrite Hurl.
    change (base +:+ "/" +:+ webhook_id +:+ "/")
      with (base +:+ "/" +:+ webhook_id +:+ "/" +:+ "").
    rewrite (webhook_info_address_parts base webhook_id "") by done.
    simpl. by rewrite andb_false_r.
Qed.

Lemma webhook_delete_needs_id_and_token_witness :
  delete_webhook_message (init "no-address" 5 (-7)) (stormy 0%nat) "1"
  = ([], Done tt)
  ∧ delete_webhook_message (init "https://discord.com/api/webhooks/11/" 5 (-7))
      (stormy 0%nat) "1"
    = ([], Done tt).
Proof.
  split.
  - by apply (proj1 (webhook_delete_needs_id_and_token
                       (init "no-address" 5 (-7)) (stormy 0%nat) "1")).
  - by apply (proj2 (webhook_delete_needs_id_and_token
                       (init "https://discord.com/api/webhooks/11/" 5 (-7))
                       (stormy 0%nat) "1")
                "https://discord.com/api/webhooks" "11").
Defined.

Lemma webhook_delete_parts self w base webhook_id webhook_token
    message_identifier :
  webhook_url self = base +:+ "/" +:+ webhook_id +:+ "/" +:+ webhook_token →
  contains "/" webhook_id = false →
  contains "/" webhook_token = false →
  nonempty webhook_id = true →
  nonempty webhook_token = true →
  delete_webhook_message self w message_identifier
  = ([WebhookDelete webhook_id webhook_token message_identifier;
      match delete_status w with
      | Some status =>
          if status =? 204 then Log INFO "Webhook message deleted"
          else Log WARNING "Failed to delete webhook message"
      | None => Log ERROR "Error deleting webhook message"
      end],
     Done tt).
Proof.
  intros Hurl Hid Htok Hnid Hntok. unfold delete_webhook_message.
  rewrite Hurl, (webhook_info_address_parts base webhook_id webhook_token)
    by done.
  rewrite Hnid, Hntok. simpl. unfold mbind, io_bind, emit.
  destruct (delete_status w) as [status|]; [|done].
  by destruct (status =? 204).
Qed.


(** ** Telegram text messages *)

(** A text message of the configured chat: the avatar is looked up, the
    text goes out in one webhook post without a file, and the pair is
    recorded when the post returned a message and the message id is not
    0.  The only other lines of the trace are those the two helpers log
    when something raises inside them. *)
Lemma text_relay self upd w m said :
  deleted_message upd = None →
  message upd = Some m →
  msg_chat_id m = Some (telegram_chat_id self) →
  msg_text m = Some said →
  nonempty said = true →
  handle_telegram_message self upd w
  = (match posted w, truthy_opt (msg_message_id m) with
     | Some webhook_timestamp, Some message_id =>
         record_relay self message_id webhook_timestamp
     | _, _ => self
     end,
     GetAvatar (msg_user_id m)
     :: (if avatar_raises w then [Log ERROR "Error fetching avatar"] else [])
     ++ WebhookPost
          (webhook_data_of m (avatar w) (reply_text self m +:+ said)) None
     :: match post w with
        | Gives _ => []
        | Catches => [Log ERROR "Error sending webhook"]
        end).
Proof.
  intros Hdel Hm Hchat Htext Hsaid.
  unfold handle_telegram_message, handle_telegram_message_body.
  rewrite Hdel, Hm, Hchat, bool_decide_eq_true_2 by done.
  unfold relay_content. rewrite Htext. simpl. rewrite Hsaid.
  unfold get_telegram_user_avatar, send_webhook_message, posted, mbind,
    io_bind, mret, io_ret, emit. simpl.
  destruct (avatar_raises w), (post w) as [[ts|]|]; simpl; try done;
    by destruct (truthy_opt (msg_message_id m)).
Qed.

Lemma text_relay_posts self upd w m said :
  deleted_message upd = None →
  message upd = Some m →
  msg_chat_id m = Some (telegram_chat_id self) →
  msg_text m = Some said →
  nonempty said = true →
  posts (snd (handle_telegram_message self upd w))
  = [(webhook_data_of m (avatar w) (reply_text self m +:+ said), None)].
Proof.
  intros Hdel Hm Hchat Htext Hsaid.
  rewrite (text_relay self upd w m said) by done. unfold posts. simpl.
  by destruct (avatar_raises w), (post w).
Qed.

(** X16: a delete update changes nothing and calls nothing when it names
    no message id, the id 0, or an id that is in neither the
    Telegram-to-Discord nor the Telegram-to-webhook table. *)
Theorem unknown_delete_is_ignored self upd w o :
  deleted_message upd = Some o →
  (o = None ∨ o = Some 0
   ∨ ∃ message_id, o = Some message_id
                   ∧ telegram_to_discord self !! message_id = None
                   ∧ telegram_to_webhook self !! message_id = None) →
  handle_telegram_message self upd w = (self, []).
Proof.
  intros Hdel Hcase. rewrite (telegram_message_deleted self upd w o Hdel).
  unfold handle_telegram_message_delete, handle_telegram_message_delete_body.
  rewrite Hdel.
  destruct Hcase as [->|[->|(message_id & -> & Hd & Hw)]]; [done..|].
  destruct (truthy message_id); [|done]. by rewrite Hd, Hw.
Qed.

Lemma unknown_delete_is_ignored_witness :
  handle_telegram_message recorded_once (delete_update 30 77) (stormy 0%nat)
  = (recorded_once, []).
Proof.
  apply (unknown_delete_is_ignored recorded_once (delete_update 30 77)
           (stormy 0%nat) (Some 77)); [reflexivity|].
  right. right. by exists 77.
Defined.

(** X17: relay, then delete, on the Telegram side.  A text message whose
    id (not 0) and whose webhook post id are not yet in the tables is
    relayed with success; a delete update for it then makes no call and
    leaves the object exactly as it was before the relay. *)
Theorem telegram_relay_then_delete_restores self upd w m said message_id
    webhook_timestamp upd' w' :
  deleted_message upd = None →
  message upd = Some m →
  msg_chat_id m = Some (telegram_chat_id self) →
  msg_text m = Some said →
  nonempty said = true →
  msg_message_id m = Some message_id →
  message_id ≠ 0 →
  posted w = Some webhook_timestamp →
  telegram_to_discord self !! message_id = None →
  telegram_to_webhook self !! message_id = None →
  webhook_to_telegram self !! webhook_timestamp = None →
  deleted_message upd' = Some (Some message_id) →
  telegram_to_webhook (fst (handle_telegram_message self upd w)) !! message_id
  = Some webhook_timestamp
  ∧ webhook_to_telegram (fst (handle_telegram_message self upd w))
    !! webhook_timestamp
    = Some message_id
  ∧ handle_telegram_message (fst (handle_telegram_message self upd w)) upd' w'
    = (self, []).
Proof.
  intros Hdel Hm Hchat Htext Hsaid Hid Hnz Hpost Hd Hw Hts Hdel'.
  rewrite (text_relay self upd w m said) by done.
  rewrite Hpost, Hid, (truthy_opt_nonzero message_id Hnz). simpl.
  rewrite !lookup_insert_eq. split; [done|]. split; [done|].
  rewrite (telegram_message_deleted _ upd' w' _ Hdel').
  unfold handle_telegram_message_delete, handle_telegram_message_delete_body.
  rewrite Hdel'.
  assert (truthy message_id = true) as ->.
  { unfold truthy. by apply negb_true_iff, Z.eqb_neq. }
  simpl. rewrite Hd, lookup_insert_eq. simpl. f_equal.
  rewrite !delete_insert_eq, !delete_id by done.
  by destruct self.
Qed.

Lemma telegram_relay_then_delete_restores_witness :
  telegram_to_webhook
    (fst (handle_telegram_message recorded_once
            (message_update 31 (bob_says 531 "hello" None)) (posting "900")))
  !! 531 = Some "900"
  ∧ webhook_to_telegram
      (fst (handle_telegram_message recorded_once
              (message_update 31 (bob_says 531 "hello" None)) (posting "900")))
    !! "900" = Some 531
  ∧ handle_telegram_message
      (fst (handle_telegram_message recorded_once
              (message_update 31 (bob_says 531 "hello" None)) (posting "900")))
      (delete_update 32 531) (stormy 0%nat)
    = (recorded_once, []).
Proof.
  apply (telegram_relay_then_delete_restores recorded_once
           (message_update 31 (bob_says 531 "hello" None)) (posting "900")
           (bob_says 531 "hello" None) "hello" 531 "900"
           (delete_update 32 531) (stormy 0%nat));
    try reflexivity; lia.
Defined.

(** ** Replies on the Telegram side *)

Lemma append_assoc (a b c : string) : (a +:+ b) +:+ c = a +:+ (b +:+ c).
Proof.
  induction a as [|x a IH]; [done|].
  change (String x ((a +:+ b) +:+ c) = String x (a +:+ (b +:+ c))).
  by rewrite IH.
Qed.

(** X18: a reply across the two relays.  When a Discord message was
    relayed with success as the Telegram message [t], a Telegram text
    message that replies to [t] is posted to the webhook with a first line
    that names the author of the Discord message, followed by the text. *)
Theorem telegram_reply_names_the_author self first answers n j t upd w m said :
  length (requests self first) = S n →
  (∀ k, (k < n)%nat → returns (answers k)) →
  answers n = Returns j →
  ok j = true →
  result_message_id j = Some t →
  deleted_message upd = None →
  message upd = Some m →
  msg_chat_id m = Some (telegram_chat_id self) →
  msg_text m = Some said →
  nonempty said = true →
  msg_reply_to_message m = Some t →
  posts (snd (handle_telegram_message
                (fst (handle_discord_message self first answers)) upd w))
  = [({| wh_username := username_of m;
         wh_avatar_url := avatar w;
         wh_content :=
           "> " +:+ balloon +:+ " Replying to **"
             +:+ author_display_name first +:+ "**" +:+ newline +:+ newline
             +:+ said |},
      None)].
Proof.
  intros Hlen Hret Hn Hok Hid Hdel Hm Hchat Htext Hsaid Hreply.
  rewrite (last_send_recorded self first answers n j t) by done. simpl.
  rewrite (text_relay_posts _ upd w m said) by done.
  unfold webhook_data_of, reply_text, record_direct. simpl.
  rewrite Hreply, lookup_insert_eq. simpl.
  by rewrite !append_assoc.
Qed.

Lemma telegram_reply_names_the_author_witness :
  posts (snd (handle_telegram_message
                (fst (handle_discord_message sample_sync (ann_says 1 "hi" [])
                        (always (succeeds 100))))
                (message_update 33 (bob_says 533 "hello Ann" (Some 100)))
                (posting "901")))
  = [({| wh_username := "bob";
         wh_avatar_url := "https://api.dicebear.com/7.x/initials/svg?seed=42";
         wh_content :=
           "> " +:+ balloon +:+ " Replying to **" +:+ "Ann" +:+ "**"
             +:+ newline +:+ newline +:+ "hello Ann" |},
      None)].
Proof.
  apply (telegram_reply_names_the_author sample_sync (ann_says 1 "hi" [])
           (always (succeeds 100)) 0
           {| ok := true; result_message_id := Some 100 |} 100
           (message_update 33 (bob_says 533 "hello Ann" (Some 100)))
           (posting "901") (bob_says 533 "hello Ann" (Some 100)) "hello Ann");
    try reflexivity.
  intros k Hk. lia.
Defined.

(** X19: a Telegram text message that replies to a Telegram message
    relayed earlier through the webhook (and not in the
    Telegram-to-Discord table) is posted with the line "Replying to
    previous message" before its text; a reply to a message that is in
    neither table is posted as its text alone. *)
Theorem telegram_reply_to_relayed self upd w m said replied :
  deleted_message upd = None →
  message upd = Some m →
  msg_chat_id m = Some (telegram_chat_id self) →
  msg_text m = Some said →
  nonempty said = true →
  msg_reply_to_message m = Some replied →
  telegram_to_discord self !! replied = None →
  posts (snd (handle_telegram_message self upd w))
  = [({| wh_username := username_of m;
         wh_avatar_url := avatar w;
         wh_content :=
           match telegram_to_webhook self !! replied with
           | Some _ =>
               "> " +:+ balloon +:+ " Replying to previous message"
                 +:+ newline +:+ newline +:+ said
           | None => said
           end |},
      None)].
Proof.
  intros Hdel Hm Hchat Htext Hsaid Hreply Hd.
  rewrite (text_relay_posts _ upd w m said) by done.
  unfold webhook_data_of, reply_text. simpl.
  rewrite Hreply, Hd.
  destruct (telegram_to_webhook self !! replied); [|done].
  by rewrite !append_assoc.
Qed.

Lemma telegram_reply_to_relayed_witness :
  posts (snd (handle_telegram_message
                (fst (handle_telegram_message sample_sync
                        (message_update 31 (bob_says 531 "hello" None))
                        (posting "900")))
                (message_update 34 (bob_says 534 "again" (Some 531)))
                (posting "902")))
  = [({| wh_username := "bob";
         wh_avatar_url := "https://api.dicebear.com/7.x/initials/svg?seed=42";
         wh_content :=
           "> " +:+ balloon +:+ " Replying to previous message"
             +:+ newline +:+ newline +:+ "again" |},
      None)].
Proof.
  apply (telegram_reply_to_relayed
           (fst (handle_telegram_message sample_sync
                   (message_update 31 (bob_says 531 "hello" None))
                   (posting "900")))
           (message_update 34 (bob_says 534 "again" (Some 531)))
           (posting "902") (bob_says 534 "again" (Some 531)) "again" 531);
    reflexivity.
Defined.

(** ** A Telegram delete of a relayed Discord message *)

(** X20: a delete update for a Telegram message recorded for a Discord
    message removes the pair from both tables and logs the deletion
    whatever becomes of the request to Discord: with the channel found
    and an address ending in [/id/token], one [DELETE] for that Discord
    message id is attempted first; without the channel nothing is
    requested. *)
Theorem telegram_delete_of_direct_pair self upd w t d n u base webhook_id
    webhook_token :
  deleted_message upd = Some (Some t) →
  t ≠ 0 →
  telegram_to_discord self !! t = Some (d, n, u) →
  webhook_url self = base +:+ "/" +:+ webhook_id +:+ "/" +:+ webhook_token →
  contains "/" webhook_id = false →
  contains "/" webhook_token = false →
  nonempty webhook_id = true →
  nonempty webhook_token = true →
  handle_telegram_message self upd w
  = (set_direct self (delete d (discord_to_telegram self))
       (delete t (telegram_to_discord self)),
     (if channel_found w
      then [WebhookDelete webhook_id webhook_token d;
            match delete_status w with
            | Some status =>
                if status =? 204 then Log INFO "Webhook message deleted"
                else Log WARNING "Failed to delete webhook message"
            | None => Log ERROR "Error deleting webhook message"
            end]
      else [])
     ++ [Log INFO "Message deleted in Discord"]).
Proof.
  intros Hdel Hnz Hl Hurl Hid Htok Hnid Hntok.
  rewrite (telegram_message_deleted self upd w _ Hdel).
  unfold handle_telegram_message_delete, handle_telegram_message_delete_body.
  rewrite Hdel.
  assert (truthy t = true) as ->.
  { unfold truthy. by apply negb_true_iff, Z.eqb_neq. }
  rewrite Hl. unfold mbind, io_bind. destruct (channel_found w); [|done].
  by rewrite (webhook_delete_parts self w base webhook_id webhook_token d).
Qed.

Lemma telegram_delete_of_direct_pair_witness :
  handle_telegram_message recorded_once (delete_update 35 100) (posting "0")
  = (set_direct recorded_once
       (delete "1" (discord_to_telegram recorded_once))
       (delete 100 (telegram_to_discord recorded_once)),
     [WebhookDelete "11" "tok" "1";
      Log INFO "Webhook message deleted";
      Log INFO "Message deleted in Discord"]).
Proof.
  by apply (telegram_delete_of_direct_pair recorded_once
              (delete_update 35 100) (posting "0") 100 "1" "Ann" 9
              "https://discord.com/api/webhooks" "11" "tok").
Defined.

(** ** The webhook tables mirror each other *)

Lemma relay_paired_record self message_id webhook_timestamp :
  relay_paired self →
  telegram_to_webhook self !! message_id = None →
  webhook_to_telegram self !! webhook_timestamp = None →
  relay_paired (record_relay self message_id webhook_timestamp).
Proof.
  intros Hpair Hm Hts m ts. unfold record_relay. simpl.
  rewrite !lookup_insert. repeat case_decide; subst.
  - split; congruence.
  - split; [intros [= ->]; done|].
    intros Hl. apply Hpair in Hl. congruence.
  - split; [|intros [= ->]; done].
    intros Hl. apply Hpair in Hl. congruence.
  - apply Hpair.
Qed.

Lemma relay_paired_delete self message_id webhook_id :
  relay_paired self →
  telegram_to_webhook self !! message_id = Some webhook_id →
  relay_paired
    (set_relay self (delete webhook_id (webhook_to_telegram self))
       (delete message_id (telegram_to_webhook self))).
Proof.
  intros Hpair Hl m ts. simpl. rewrite !lookup_delete.
  repeat case_decide; subst.
  - done.
  - split; [done|]. intros Hts. apply Hpair in Hts. congruence.
  - split; [|done]. intros Hm. apply Hpair in Hl. apply Hpair in Hm.
    congruence.
  - apply Hpair.
Qed.

(** X21: the two webhook tables stay mirror images of each other through
    the dispatch of a Telegram update, message or deletion, when the id
    of a relayed message and the id the webhook post returns are not yet
    in the tables. *)
Theorem webhook_tables_stay_paired self upd w :
  relay_paired self →
  (∀ m message_id,
     message upd = Some m → msg_message_id m = Some message_id →
     telegram_to_webhook self !! message_id = None) →
  (∀ webhook_timestamp,
     posted w = Some webhook_timestamp →
     webhook_to_telegram self !! webhook_timestamp = None) →
  relay_paired (fst (handle_telegram_message self upd w)).
Proof.
  intros Hpair Hfresh_m Hfresh_ts.
  destruct (deleted_message upd) as [o|] eqn:Hdel.
  - rewrite (telegram_message_deleted self upd w o Hdel).
    rewrite telegram_delete_state, Hdel.
    destruct o as [message_id|]; [|done].
    destruct (truthy message_id); [|done]. unfold after_telegram_delete.
    destruct (telegram_to_discord self !! message_id) as [[[d n] u]|];
      [done|].
    destruct (telegram_to_webhook self !! message_id) as [webhook_id|] eqn:Hl;
      [|done].
    by apply relay_paired_delete.
  - unfold handle_telegram_message, handle_telegram_message_body.
    rewrite Hdel. destruct (message upd) as [m|] eqn:Hm; [|done].
    case_bool_decide; [|done].
    destruct (get_telegram_user_avatar_result w (msg_user_id m)) as [t0 ->].
    unfold mbind, io_bind, mret, io_ret.
    destruct (relay_content self w m (avatar w)) as [t [r|e]] eqn:Hrelay;
      [|done].
    apply relay_content_result in Hrelay.
    destruct r as [ts|]; [|done].
    destruct (truthy_opt (msg_message_id m)) as [message_id|] eqn:Hid; [|done].
    simpl. apply relay_paired_record; [done| |].
    + apply (Hfresh_m m); [done|]. unfold truthy_opt in Hid.
      destruct (msg_message_id m) as [z|]; [|done].
      destruct (truthy z); congruence.
    + apply Hfresh_ts. destruct Hrelay; congruence.
Qed.

Lemma webhook_tables_stay_paired_witness :
  relay_paired
    (fst (handle_telegram_message recorded_once
            (message_update 31 (bob_says 531 "hello" None)) (posting "900"))).
Proof.
  apply webhook_tables_stay_paired.
  - intros m ts. simpl. by rewrite !lookup_empty.
  - intros m message_id _ _. simpl. by rewrite lookup_empty.
  - intros ts _. simpl. by rewrite lookup_empty.
Defined.

(** ** What does not reach the handlers *)




(** X24: an update that is not a deletion changes nothing but the two
    webhook tables, and no update changes the configuration or the poll
    cursor. *)
Theorem telegram_handler_touches_webhook_tables_only self upd w :
  (deleted_message upd = None →
   same_but_relay self (fst (handle_telegram_message self upd w)))
  ∧ webhook_url (fst (handle_telegram_message self upd w)) = webhook_url self
  ∧ discord_channel_id (fst (handle_telegram_message self upd w))
    = discord_channel_id self
  ∧ telegram_chat_id (fst (handle_telegram_message self upd w))
    = telegram_chat_id self
  ∧ telegram_offset (fst (handle_telegram_message self upd w))
    = telegram_offset self.
Proof.
  split.
  - intros Hdel.
    destruct (telegram_message_state self upd w Hdel)
      as [->|(message_id & ts & _ & ->)]; by repeat split.
  - destruct (deleted_message upd) as [o|] eqn:Hdel.
    + rewrite (telegram_message_deleted self upd w o Hdel).
      rewrite telegram_delete_state, Hdel.
      destruct o as [message_id|]; [|done].
      destruct (truthy message_id); [|done]. unfold after_telegram_delete.
      destruct (telegram_to_discord self !! message_id) as [[[d n] u]|];
        [done|].
      by destruct (telegram_to_webhook self !! message_id).
    + destruct (telegram_message_state self upd w Hdel)
        as [->|(message_id & ts & _ & ->)]; done.
Qed.

(** ** Avatars *)

Lemma append_inj_l (p a b : string) : p +:+ a = p +:+ b → a = b.
Proof.
  induction p as [|x p IH]; [done|].
  change (String x (p +:+ a) = String x (p +:+ b) → a = b).
  intros [= H]. by apply IH.
Qed.

(** X25: the avatar lookup ends in the default avatar whenever the
    profile photo query finds no photo: the query raises, does not say
    [ok], has no positive count, or lists no photo or a photo without
    sizes.  Only the query is made then, and the default avatar is keyed
    by the user id: two users with different ids get different URLs. *)
Theorem default_avatar_is_keyed_by_user telegram_token user_id photos_answer
    file_answer :
  (found_photo photos_answer = None →
   user_avatar telegram_token user_id photos_answer file_answer
   = ([getUserProfilePhotos user_id], default_avatar user_id))
  ∧ (∀ a b, default_avatar (Some a) = default_avatar (Some b) → a = b).
Proof.
  split.
  - unfold found_photo, user_avatar.
    destruct photos_answer as [data|]; [|done].
    destruct (photos_ok data); simpl; [|by destruct (total_count data)].
    destruct (total_count data) as [n|]; [|done].
    destruct (0 <? n); [|done].
    destruct (photos data) as [|sizes rest]; [done|]. simpl.
    by destruct (last sizes).
  - intros a b Heq. unfold default_avatar, fmt, str in Heq.
    apply append_inj_l in Heq. by apply (inj pretty) in Heq.
Qed.

Lemma default_avatar_is_keyed_by_user_witness :
  user_avatar "TOKEN" (Some 42)
    (PhotosReturns {| photos_ok := true; total_count := Some 0; photos := [] |})
    FileRaises
  = ([getUserProfilePhotos (Some 42)],
     "https://api.dicebear.com/7.x/initials/svg?seed=42").
Proof.
  by apply (proj1 (default_avatar_is_keyed_by_user "TOKEN" (Some 42)
                     (PhotosReturns {| photos_ok := true;
                                       total_count := Some 0;
                                       photos := [] |})
                     FileRaises)).
Defined.

(** X26: when the profile photo query finds a photo, the file asked for
    is the last size of the first photo, and the avatar is the download
    URL of that file under the bot's token; when [getFile] does not say
    [ok], gives no path or raises, the avatar is the empty string, not
    the default avatar. *)
Theorem avatar_of_a_user_with_photo telegram_token user_id photos_answer
    file_answer file_id :
  found_photo photos_answer = Some file_id →
  user_avatar telegram_token user_id photos_answer file_answer
  = ([getUserProfilePhotos user_id; getFile file_id],
     match file_answer with
     | FileReturns {| file_ok := true; file_path := Some path |} =>
         "https://api.telegram.org/file/bot" +:+ telegram_token +:+ "/"
           +:+ path
     | _ => ""
     end).
Proof.
  unfold found_photo, user_avatar, get_telegram_file_url.
  destruct photos_answer as [data|]; [|done].
  destruct (total_count data) as [n|]; [|by destruct (photos_ok data)].
  destruct (photos_ok data); [|done]. simpl.
  destruct (0 <? n); [|done].
  destruct (photos data) as [|sizes rest]; [done|]. simpl.
  destruct (last sizes) as [fid|]; [|done]. intros [= ->].
  destruct file_answer as [[[] [path|]]|]; done.
Qed.

Lemma avatar_of_a_user_with_photo_witness :
  user_avatar "TOKEN" (Some 42)
    (PhotosReturns {| photos_ok := true;
                      total_count := Some 2;
                      photos := [["s"; "m"; "l"]; ["old"]] |})
    (FileReturns {| file_ok := true; file_path := Some "photos/l.jpg" |})
  = ([getUserProfilePhotos (Some 42); getFile "l"],
     "https://api.telegram.org/file/botTOKEN/photos/l.jpg").
Proof.
  by apply (avatar_of_a_user_with_photo "TOKEN" (Some 42)
              (PhotosReturns {| photos_ok := true;
                                total_count := Some 2;
                                photos := [["s"; "m"; "l"]; ["old"]] |})
              (FileReturns {| file_ok := true;
                              file_path := Some "photos/l.jpg" |})
              "l").
Defined.

(** ** A delete event that comes twice *)

(** X15: a Discord delete event that is repeated.  After a delete whose
    Telegram call did not succeed (a non-success answer, or the call
    raised) the same event makes the same call again, as if the first had
    not happened; after a delete that succeeded, the same event finds no
    correlation: it calls nothing and changes nothing. *)
Theorem repeated_discord_delete self message t n u :
  discord_to_telegram self !! str (id message) = Some (t, n, u) →
  (∀ answer answer',
     (answer = Raises ∨ ∃ j, answer = Returns j ∧ ok j = false) →
     handle_discord_message_delete
       (fst (handle_discord_message_delete self message answer)) message answer'
     = handle_discord_message_delete self message answer'
     ∧ sent (snd (handle_discord_message_delete self message answer'))
       = [deleteMessage (telegram_chat_id self) t])
  ∧ (∀ j answer',
       ok j = true →
       handle_discord_message_delete
         (fst (handle_discord_message_delete self message (Returns j)))
         message answer'
       = (fst (handle_discord_message_delete self message (Returns j)), [])).
Proof.
  intros Hd. split.
  - intros answer answer' Hfail. split.
    + destruct Hfail as [->|(j & -> & Hok)].
      * by rewrite (discord_delete_raises self message t n u).
      * by rewrite (discord_delete_not_ok self message j t n u).
    + destruct answer' as [j'|];
        [|by rewrite (discord_delete_raises self message t n u)].
      destruct (ok j') eqn:Hok'.
      * by rewrite (discord_delete_ok self message j' t n u).
      * by rewrite (discord_delete_not_ok self message j' t n u).
  - intros j answer' Hok.
    rewrite (discord_delete_ok self message j t n u) by done. simpl.
    apply discord_delete_miss. simpl. by rewrite lookup_delete_eq.
Qed.

Lemma repeated_discord_delete_witness :
  (∀ answer answer',
     (answer = Raises ∨ ∃ j, answer = Returns j ∧ ok j = false) →
     handle_discord_message_delete
       (fst (handle_discord_message_delete recorded_once (ann_says 1 "hi" [])
               answer))
       (ann_says 1 "hi" []) answer'
     = handle_discord_message_delete recorded_once (ann_says 1 "hi" []) answer'
     ∧ sent (snd (handle_discord_message_delete recorded_once
                    (ann_says 1 "hi" []) answer'))
       = [deleteMessage (telegram_chat_id recorded_once) 100])
  ∧ (∀ j answer',
       ok j = true →
       handle_discord_message_delete
         (fst (handle_discord_message_delete recorded_once (ann_says 1 "hi" [])
                 (Returns j)))
         (ann_says 1 "hi" []) answer'
       = (fst (handle_discord_message_delete recorded_once
                 (ann_says 1 "hi" []) (Returns j)), [])).
Proof.
  by apply (repeated_discord_delete recorded_once (ann_says 1 "hi" [])
              100 "Ann" 9).
Defined.
